(** * Wallet risk scoring: a shallow embedding of [wallet_risk_scoring.py]

    The development follows the source file top-down: the Python values the
    program manipulates (numbers, JSON payloads, exceptions), then the
    fetcher, the feature extractor, the normalisers, the scorer and the batch
    loop of [main], and finally the properties of the specification.

    Modelling conventions.
    - A Python [float] is a value of [pyfloat]: a finite number, one of the
      two infinities, or NaN.  Finite arithmetic is exact (rationals, kept in
      lowest terms); binary64 rounding, overflow of finite operands and the
      sign of zero are outside the model.  The special values follow IEEE 754
      as Python exposes it.  A Python [int] used where a float is expected is
      the finite number of the same value.
      A [numpy.float64] behaves as a Python float, [round] included.
      The arithmetic of the first scenario of the specification is replayed
      with primitive binary64 floats in [Binary64].
    - Code that can raise returns a [result]; [try]/[except] is an explicit
      match on it.
    - [numpy.log10] and the string case of [float(...)] are library code: they
      are parameters of the model. *)

From Stdlib Require Import ZArith QArith Qround List String Ascii Bool Lia Lqa.
From Stdlib Require Import Permutation.
From Stdlib Require PrimFloat.
Import ListNotations.

Set Implicit Arguments.

Local Open Scope string_scope.
Local Open Scope list_scope.
Local Open Scope Z_scope.

(* ================================================================== *)
(** * Python values *)
(* ================================================================== *)

Module Py.

(** ** Exceptions and results *)

Inductive exn_kind : Type :=
| AttributeError | TypeError | ValueError | OverflowError | ZeroDivisionError
| RequestsTimeout | RequestException | OtherException.

Record exn : Type := mkExn { kind : exn_kind; message : string }.

Inductive result (A : Type) : Type :=
| Ok (a : A)
| Raise (e : exn).
Arguments Ok {A} a.
Arguments Raise {A} e.

Definition bind {A B : Type} (m : result A) (k : A -> result B) : result B :=
  match m with
  | Ok a => k a
  | Raise e => Raise e
  end.

Declare Scope py_scope.
Delimit Scope py_scope with py.
Notation "x <- m ;; k" := (bind m (fun x => k))
  (at level 61, m at next level, right associativity) : py_scope.
Notation "' pat <- m ;; k" := (bind m (fun pat => k))
  (at level 61, pat pattern, m at next level, right associativity) : py_scope.
Notation "m ;; k" := (bind m (fun _ => k))
  (at level 61, right associativity) : py_scope.

(** [try: body except Exception: handler] *)
Definition try_except {A : Type} (body : result A) (handler : exn -> result A)
  : result A :=
  match body with
  | Ok a => Ok a
  | Raise e => handler e
  end.

Definition is_kind (k1 k2 : exn_kind) : bool :=
  match k1, k2 with
  | AttributeError, AttributeError | TypeError, TypeError
  | ValueError, ValueError | OverflowError, OverflowError
  | ZeroDivisionError, ZeroDivisionError | RequestsTimeout, RequestsTimeout
  | RequestException, RequestException
  | OtherException, OtherException => true
  | _, _ => false
  end.

(** ** Floats *)

Inductive pyfloat : Type :=
| Fin (q : Q)
| PInf
| NInf
| NaN.

Definition of_Z (z : Z) : pyfloat := Fin (inject_Z z).

Definition Qltb (a b : Q) : bool :=
  match (a ?= b)%Q with Lt => true | _ => false end.
Definition Qleb (a b : Q) : bool :=
  match (a ?= b)%Q with Gt => false | _ => true end.
Definition Qeqb (a b : Q) : bool :=
  match (a ?= b)%Q with Eq => true | _ => false end.

(** [x < y]; every comparison with NaN is false. *)
Definition flt (x y : pyfloat) : bool :=
  match x, y with
  | NaN, _ | _, NaN => false
  | Fin a, Fin b => Qltb a b
  | Fin _, PInf | NInf, Fin _ | NInf, PInf => true
  | Fin _, NInf | PInf, _ | NInf, NInf => false
  end.

(** [x <= y] *)
Definition fle (x y : pyfloat) : bool :=
  match x, y with
  | NaN, _ | _, NaN => false
  | Fin a, Fin b => Qleb a b
  | NInf, _ | _, PInf => true
  | PInf, _ | _, NInf => false
  end.

(** [x == y] *)
Definition feq (x y : pyfloat) : bool :=
  match x, y with
  | Fin a, Fin b => Qeqb a b
  | PInf, PInf | NInf, NInf => true
  | _, _ => false
  end.

Definition fgt (x y : pyfloat) : bool := flt y x.
Definition fge (x y : pyfloat) : bool := fle y x.

Definition is_nan (x : pyfloat) : bool :=
  match x with
  | NaN => true
  | _ => false
  end.

Definition fadd (x y : pyfloat) : pyfloat :=
  match x, y with
  | NaN, _ | _, NaN => NaN
  | Fin a, Fin b => Fin (Qred (a + b)%Q)
  | PInf, NInf | NInf, PInf => NaN
  | PInf, _ | _, PInf => PInf
  | NInf, _ | _, NInf => NInf
  end.

Definition fsub (x y : pyfloat) : pyfloat :=
  match x, y with
  | NaN, _ | _, NaN => NaN
  | Fin a, Fin b => Fin (Qred (a - b)%Q)
  | PInf, PInf | NInf, NInf => NaN
  | PInf, _ | _, NInf => PInf
  | NInf, _ | _, PInf => NInf
  end.

(** Sign of a finite number, for the products and quotients with an
    infinity. *)
Definition Qsign (a : Q) : comparison := (a ?= 0)%Q.

Definition inf_of_sign (s : comparison) : pyfloat :=
  match s with
  | Gt => PInf
  | Lt => NInf
  | Eq => NaN
  end.

Definition flip (s : comparison) : comparison := CompOpp s.

Definition fmul (x y : pyfloat) : pyfloat :=
  match x, y with
  | NaN, _ | _, NaN => NaN
  | Fin a, Fin b => Fin (Qred (a * b)%Q)
  | Fin a, PInf | PInf, Fin a => inf_of_sign (Qsign a)
  | Fin a, NInf | NInf, Fin a => inf_of_sign (flip (Qsign a))
  | PInf, PInf | NInf, NInf => PInf
  | PInf, NInf | NInf, PInf => NaN
  end.

(** Division of two [numpy.float64]: a zero divisor gives an infinity or NaN
    (with a warning), never an exception. *)
Definition np_div (x y : pyfloat) : pyfloat :=
  match x, y with
  | NaN, _ | _, NaN => NaN
  | Fin a, Fin b =>
      if Qeqb b 0%Q then inf_of_sign (Qsign a) else Fin (Qred (a / b)%Q)
  | Fin _, PInf | Fin _, NInf => Fin 0%Q
  | PInf, Fin b => if Qltb b 0%Q then NInf else PInf
  | NInf, Fin b => if Qltb b 0%Q then PInf else NInf
  | PInf, PInf | PInf, NInf | NInf, PInf | NInf, NInf => NaN
  end.

(** Division of two Python floats (or ints): a zero divisor raises. *)
Definition py_div (x y : pyfloat) : result pyfloat :=
  if feq y (Fin 0%Q)
  then Raise (mkExn ZeroDivisionError "float division by zero")
  else Ok (np_div x y).

(** The builtins [max(a, b)] and [min(a, b)]: the first argument is kept
    unless the second is strictly greater (smaller). *)
Definition py_max (a b : pyfloat) : pyfloat := if fgt b a then b else a.
Definition py_min (a b : pyfloat) : pyfloat := if flt b a then b else a.

(** [round(x)] with one argument: nearest integer, ties to the even one. *)
Definition round_half_even (q : Q) : Z :=
  let f := Qfloor q in
  match (q - inject_Z f ?= 1 # 2)%Q with
  | Lt => f
  | Gt => f + 1
  | Eq => if Z.even f then f else f + 1
  end.

Definition py_round (x : pyfloat) : result Z :=
  match x with
  | Fin q => Ok (round_half_even q)
  | PInf | NInf =>
      Raise (mkExn OverflowError "cannot convert float infinity to integer")
  | NaN => Raise (mkExn ValueError "cannot convert float NaN to integer")
  end.

(** ** JSON values, as [response.json()] returns them

    A [JDict] lists the entries of the resulting Python [dict]; its keys are
    distinct, and [dict_get] reads the entry of a key. *)

#[local] Unset Elimination Schemes.
Inductive json : Type :=
| JNull
| JBool (b : bool)
| JInt (z : Z)
| JFloat (f : pyfloat)
| JStr (s : string)
| JList (l : list json)
| JDict (d : list (string * json)).
#[local] Set Elimination Schemes.

Definition type_name (j : json) : string :=
  match j with
  | JNull => "NoneType"
  | JBool _ => "bool"
  | JInt _ => "int"
  | JFloat _ => "float"
  | JStr _ => "str"
  | JList _ => "list"
  | JDict _ => "dict"
  end.

Fixpoint dict_get (d : list (string * json)) (key : string) : option json :=
  match d with
  | [] => None
  | (k, v) :: rest => if String.eqb k key then Some v else dict_get rest key
  end.

(** [obj.get(key, default)]: only a [dict] has the method. *)
Definition py_get (obj : json) (key : string) (default : json) : result json :=
  match obj with
  | JDict d =>
      match dict_get d key with
      | Some v => Ok v
      | None => Ok default
      end
  | _ =>
      Raise (mkExn AttributeError
               ("'" ++ type_name obj ++ "' object has no attribute 'get'"))
  end.

(** Truth value of an object, as [not obj] and [if obj] test it. *)
Definition truthy (j : json) : bool :=
  match j with
  | JNull => false
  | JBool b => b
  | JInt z => negb (z =? 0)
  | JFloat f => negb (feq f (Fin 0%Q))
  | JStr s => negb (String.eqb s "")
  | JList l => match l with [] => false | _ :: _ => true end
  | JDict d => match d with [] => false | _ :: _ => true end
  end.

Fixpoint is_substring (needle hay : string) : bool :=
  String.prefix needle hay
  || match hay with
     | EmptyString => false
     | String _ rest => is_substring needle rest
     end.

Definition is_str (s : string) (j : json) : bool :=
  match j with
  | JStr t => String.eqb t s
  | _ => false
  end.

(** [key in obj] for a string [key]. *)
Definition py_in (key : string) (obj : json) : result bool :=
  match obj with
  | JDict d => Ok (match dict_get d key with Some _ => true | None => false end)
  | JList l => Ok (existsb (is_str key) l)
  | JStr s => Ok (is_substring key s)
  | _ =>
      Raise (mkExn TypeError
               ("argument of type '" ++ type_name obj ++ "' is not iterable"))
  end.

Fixpoint chars (s : string) : list json :=
  match s with
  | EmptyString => []
  | String c rest => JStr (String c EmptyString) :: chars rest
  end.

(** The elements a [for] loop over [obj] visits. *)
Definition py_iter (obj : json) : result (list json) :=
  match obj with
  | JList l => Ok l
  | JStr s => Ok (chars s)
  | JDict d => Ok (map (fun kv => JStr (fst kv)) d)
  | _ =>
      Raise (mkExn TypeError ("'" ++ type_name obj ++ "' object is not iterable"))
  end.

(** Integers from this magnitude on do not convert to a float. *)
Definition float_overflow_threshold : Z := 2 ^ 1024 - 2 ^ 970.

(** [float(x)]; [float_of_str] is the library's parser of float literals,
    [None] where it rejects the string. *)
Definition py_float (float_of_str : string -> option pyfloat) (x : json)
  : result pyfloat :=
  match x with
  | JBool b => Ok (of_Z (if b then 1 else 0))
  | JInt z =>
      if Z.abs z <? float_overflow_threshold
      then Ok (of_Z z)
      else Raise (mkExn OverflowError "int too large to convert to float")
  | JFloat f => Ok f
  | JStr s =>
      match float_of_str s with
      | Some f => Ok f
      | None => Raise (mkExn ValueError "could not convert string to float")
      end
  | JNull | JList _ | JDict _ =>
      Raise (mkExn TypeError
               ("float() argument must be a string or a real number, not '"
                ++ type_name x ++ "'"))
  end.

End Py.

Import Py.
Local Open Scope py_scope.

(* ================================================================== *)
(** * The first scenario in binary64 arithmetic *)
(* ================================================================== *)

(** The primitive floats of Rocq are the binary64 numbers of Python.  They
    replay, with the rounding that the exact model leaves out, the arithmetic
    of the first end-to-end scenario of the specification: two holdings of
    500,000, with 2 and 6 for the logarithms of the two thresholds. *)
Module Binary64.
Import PrimFloat.
#[local] Set Warnings "-inexact-float".
#[local] Open Scope float_scope.

(** Lines 149 and 158. *)
Definition b64_total : float := 0 + 500000 + 500000.
Definition b64_concentration : float := 500000 / b64_total.

(** Lines 190, 204 and 217; the clamp of line 191 keeps the 1. *)
Definition b64_size_score : float := (6 - 2) / (6 - 2).
Definition b64_diversity_score : float := (2 - 1) / 14.
Definition b64_concentration_score : float := 1 - b64_concentration.

(** Lines 252-259, up to the call of [round]. *)
Definition b64_weighted_score : float :=
  b64_size_score * 0.35 + b64_diversity_score * 0.35
  + b64_concentration_score * 0.30.
Definition b64_scaled_score : float := (1 - b64_weighted_score) * 1000.

(** The values the specification gives for the scenario. *)
Definition b64_as_specified : bool :=
  ((b64_total =? 1000000) && (b64_concentration =? 0.5)
   && (b64_size_score =? 1) && (b64_scaled_score =? 475))%bool.

End Binary64.

(* ================================================================== *)
(** * The program *)
(* ================================================================== *)

(** ** The network, as [fetch_wallet_data] sees it *)

(** What one call of [requests.get] does: it raises, or it returns a response
    with a status code and a body; [body = None] is a body that
    [response.json()] cannot decode. *)
Inductive response : Type :=
| Timeout
| RequestError
| UnexpectedError
| Reply (status_code : Z) (body : option json).

(** The observable effects of the fetcher: the requests it sends and the
    pauses it takes, in order. *)
Inductive event : Type :=
| Request (attempt : nat)
| Sleep (seconds : Z).

(** How one pass through the [try] block of the retry loop ends. *)
Inductive flow : Type :=
| Return (data : json)
| Continue (effects : list event)
| Next.

Definition requests_get (r : response) : result (Z * option json) :=
  match r with
  | Timeout => Raise (mkExn RequestsTimeout "timed out")
  | RequestError => Raise (mkExn RequestException "request failed")
  | UnexpectedError => Raise (mkExn OtherException "unexpected error")
  | Reply status body => Ok (status, body)
  end.

Definition raise_for_status (status : Z) : result unit :=
  if (400 <=? status) && (status <? 600)
  then Raise (mkExn RequestException "HTTP error")
  else Ok tt.

Definition response_json (body : option json) : result json :=
  match body with
  | Some data => Ok data
  | None => Raise (mkExn RequestException "invalid JSON")
  end.

(** Lines 69-93: the [try] block of one attempt. *)
Definition attempt_try (r : response) (attempt : nat) : result flow :=
  '(status_code, body) <- requests_get r ;;
  if status_code =? 429
  then Ok (Continue [Sleep (10 * (Z.of_nat attempt + 1))])
  else
    raise_for_status status_code ;;
    data <- response_json body ;;
    api_errors <- (if negb (truthy data) then Ok true
                   else py_in "errors" data) ;;
    if api_errors
    then
      py_get data "errors" (JStr "No data") ;;
      Ok (Continue [])
    else
      has_data <- py_in "data" data ;;
      if has_data then Ok (Return data) else Ok Next.

(** Lines 95-100: each of the three [except] clauses logs and falls through
    to the backoff step. *)
Definition attempt (r : response) (n : nat) : flow :=
  match attempt_try r n with
  | Ok f => f
  | Raise _ => Next
  end.

(** Lines 102-106: the backoff step after attempt [n] of [retries]. *)
Definition backoff (n retries : nat) : list event :=
  if Z.of_nat n <? Z.of_nat retries - 1
  then [Sleep (Z.min (2 ^ Z.of_nat n) 30)]
  else [].

(** The [for attempt in range(retries)] loop, over the attempts still to
    make; [network n] is what the [n]-th request meets. *)
Fixpoint fetch_attempts (network : nat -> response) (retries : nat)
  (attempts : list nat) : option json * list event :=
  match attempts with
  | [] => (None, [])
  | n :: rest =>
      match attempt (network n) n with
      | Return data => (Some data, [Request n])
      | Continue effects =>
          let (r, tr) := fetch_attempts network retries rest in
          (r, Request n :: effects ++ tr)
      | Next =>
          let (r, tr) := fetch_attempts network retries rest in
          (r, Request n :: backoff n retries ++ tr)
      end
  end.

Definition fetch_wallet_data (network : nat -> response) (retries : nat)
  : option json * list event :=
  fetch_attempts network retries (seq 0 retries).

Section Program.

(** The library's parser behind [float(s)] for a string [s], and
    [numpy.log10]. *)
Variable float_of_str : string -> option pyfloat.
Variable log10 : pyfloat -> pyfloat.

(** ** Feature extraction *)

Record features : Type := mkFeatures {
  total_usd : pyfloat;
  num_assets : Z;
  largest_holding_usd : pyfloat;
  portfolio_concentration : pyfloat
}.

Definition zero_features : features :=
  mkFeatures (of_Z 0) 0 (of_Z 0) (of_Z 0).

(** Lines 148-151: the three updates for a holding worth [quote]. *)
Definition add_holding (f : features) (quote : pyfloat) : features :=
  mkFeatures (fadd (total_usd f) quote)
             (num_assets f + 1)
             (py_max (largest_holding_usd f) quote)
             (portfolio_concentration f).

(** Lines 135-151: the inner [try] block for one item.  Both [continue]
    statements and the end of the block leave with the current features. *)
Definition item_try (item : json) (f : features) : result features :=
  quote_raw <- py_get item "quote" JNull ;;
  match quote_raw with
  | JNull => Ok f
  | _ =>
      match py_float float_of_str quote_raw with
      | Raise e =>
          if is_kind (kind e) ValueError || is_kind (kind e) TypeError
          then Ok f
          else Raise e
      | Ok quote =>
          if fgt quote (of_Z 0)
          then
            py_get item "contract_ticker_symbol" (JStr "UNKNOWN") ;;
            Ok (add_holding f quote)
          else Ok f
      end
  end.

(** Lines 152-154: the handler of the inner [try]; its log line calls
    [item.get] again before the [continue]. *)
Definition item_handler (item : json) (f : features) (_ : exn)
  : result features :=
  py_get item "contract_ticker_symbol" (JStr "UNKNOWN") ;; Ok f.

Definition process_item (item : json) (f : features) : result features :=
  try_except (item_try item f) (item_handler item f).

(** Lines 132-154: the [for item in items] loop. *)
Fixpoint process_items (items : list json) (f : features) : result features :=
  match items with
  | [] => Ok f
  | item :: rest => f' <- process_item item f ;; process_items rest f'
  end.

(** Lines 157-158. *)
Definition set_concentration (f : features) : result features :=
  if fgt (total_usd f) (of_Z 0)
  then
    c <- py_div (largest_holding_usd f) (total_usd f) ;;
    Ok (mkFeatures (total_usd f) (num_assets f) (largest_holding_usd f) c)
  else Ok f.

(** Lines 117-160: the outer [try] block. *)
Definition extract_try (data : json) : result features :=
  d <- py_get data "data" (JDict []) ;;
  items <- py_get d "items" (JList []) ;;
  if negb (truthy items)
  then Ok zero_features
  else
    its <- py_iter items ;;
    f <- process_items its zero_features ;;
    set_concentration f.

(** Lines 162-169: the outer handler returns a fresh all-zero record. *)
Definition extract_features (data : json) : result features :=
  try_except (extract_try data) (fun _ => Ok zero_features).

(** ** Normalisers *)

Definition MIN_PORTFOLIO : pyfloat := of_Z 100.
Definition MAX_PORTFOLIO : pyfloat := of_Z 1000000.

Definition normalize_portfolio_size (usd_value : pyfloat) : pyfloat :=
  if fle usd_value (of_Z 0)
  then of_Z 0
  else
    let log_value := log10 (py_max usd_value (of_Z 1)) in
    let log_min := log10 MIN_PORTFOLIO in
    let log_max := log10 MAX_PORTFOLIO in
    let normalized := np_div (fsub log_value log_min) (fsub log_max log_min) in
    py_min (py_max normalized (of_Z 0)) (of_Z 1).

Definition normalize_diversification (n : Z) : pyfloat :=
  if n <=? 1 then of_Z 0
  else if n >=? 15 then of_Z 1
  else Fin (Qred (inject_Z (n - 1) / inject_Z 14)).

Definition normalize_concentration (concentration : pyfloat) : pyfloat :=
  if fge concentration (of_Z 1) then of_Z 0
  else if fle concentration (Fin 0.1%Q) then of_Z 1
  else fsub (of_Z 1) concentration.

(** ** Scorer *)

Definition weighted_score (f : features) : pyfloat :=
  let size_score := normalize_portfolio_size (total_usd f) in
  let diversity_score := normalize_diversification (num_assets f) in
  let concentration_score :=
    normalize_concentration (portfolio_concentration f) in
  fadd (fadd (fmul size_score (Fin 0.35%Q))
             (fmul diversity_score (Fin 0.35%Q)))
       (fmul concentration_score (Fin 0.30%Q)).

(** Lines 246-265; the second [return] of the source is unreachable. *)
Definition compute_score (f : features) : result Z :=
  final_score <-
    py_round (fmul (fsub (of_Z 1) (weighted_score f)) (of_Z 1000)) ;;
  let final_score :=
    if feq (total_usd f) (of_Z 0) then 800 else final_score in
  Ok (Z.max 0 (Z.min 1000 final_score)).

(** ** Batch runner *)

Record WalletResult : Type := mkResult { wallet_id : string; score : Z }.

(** An entry of [failed_addresses]: the address and the reason. *)
Definition FailureRecord : Type := (string * string)%type.

Record run_state : Type := mkState {
  results : list WalletResult;
  failed_addresses : list FailureRecord
}.

Definition initial_state : run_state := mkState [] [].

Definition append_result (st : run_state) (r : WalletResult) : run_state :=
  mkState (results st ++ [r]) (failed_addresses st).

Definition append_failure (st : run_state) (f : FailureRecord) : run_state :=
  mkState (results st) (failed_addresses st ++ [f]).

(** Line 310.  The script imports [random] before it calls [main], and the
    argument of [time.sleep] is a positive float: the delay does not raise. *)
Definition politeness_delay : result unit := Ok tt.

(** Lines 294-297: the branch taken when [not data] holds. *)
Definition record_fetch_failure (addr : string) (st : run_state) : run_state :=
  let st1 := append_failure st (addr, "Failed to fetch data") in
  append_result st1 (mkResult addr 0).

(** Lines 289-310: the [try] block for one wallet.  It returns the state it
    leaves behind together with its outcome, since an exception does not undo
    the appends made before it. *)
Definition wallet_try (addr : string) (network : nat -> response)
  (st : run_state) : run_state * result unit :=
  match fst (fetch_wallet_data network 3) with
  | None => (record_fetch_failure addr st, Ok tt)
  | Some data =>
      if negb (truthy data)
      then (record_fetch_failure addr st, Ok tt)
      else
        match (features <- extract_features data ;; compute_score features)
        with
        | Raise e => (st, Raise e)
        | Ok score => (append_result st (mkResult addr score), politeness_delay)
        end
  end.

(** Lines 312-316: the handler records the failure and a zero score. *)
Definition process_wallet (st : run_state)
  (w : string * (nat -> response)) : run_state :=
  let (addr, network) := w in
  match wallet_try addr network st with
  | (st', Ok _) => st'
  | (st', Raise e) =>
      let st1 := append_failure st' (addr, message e) in
      append_result st1 (mkResult addr 0)
  end.

(** Lines 286-316: the loop of [main] over the batch, from a given state.
    Each address comes with the behaviour of the network during its fetch. *)
Definition run_from (st : run_state) (batch : list (string * (nat -> response)))
  : run_state :=
  fold_left process_wallet batch st.

Definition main (batch : list (string * (nat -> response))) : run_state :=
  run_from initial_state batch.

(** ** The wallet list (lines 38-57)

    [pandas.read_csv] and the string methods are library code: the column it
    reads is an input, [str.strip] and [str.lower] are parameters.  A cell is
    a string or missing (NaN); the [.str] methods keep a missing cell
    missing. *)

Variable str_strip : string -> string.
Variable str_lower : string -> string.

(** What the script finds at [INPUT_CSV]: no file, a table without a
    [wallet_id] column, a [wallet_id] column that does not hold text (the
    [.str] accessor raises on it), or a column of cells. *)
Inductive csv_input : Type :=
| NoFile
| NoColumn
| NotText
| Column (cells : list (option string)).

(** Line 47. *)
Definition clean_column (cells : list (option string)) : list (option string) :=
  map (option_map (fun s => str_lower (str_strip s))) cells.

(** [Series.dropna()] *)
Fixpoint dropna (cells : list (option string)) : list string :=
  match cells with
  | [] => []
  | Some s :: rest => s :: dropna rest
  | None :: rest => dropna rest
  end.

(** [Series.unique()]: the distinct values, in order of first appearance. *)
Fixpoint unique (l : list string) : list string :=
  match l with
  | [] => []
  | x :: rest => x :: filter (fun y => negb (String.eqb y x)) (unique rest)
  end.

(** Lines 38-57: the list [wallet_addresses], or [None] when the script
    logs the error and leaves with [sys.exit(1)]. *)
Definition load_wallets (input : csv_input) : option (list string) :=
  match input with
  | NoFile | NoColumn | NotText => None
  | Column cells =>
      match unique (dropna (clean_column cells)) with
      | [] => None
      | wallet_addresses => Some wallet_addresses
      end
  end.

(** The script from the wallet list on: the batch pairs every loaded address
    with the behaviour of the network during its fetch. *)
Definition run_script (input : csv_input)
  (network : string -> nat -> response) : option run_state :=
  match load_wallets input with
  | None => None
  | Some wallet_addresses =>
      Some (main (map (fun addr => (addr, network addr)) wallet_addresses))
  end.

(** ** Summary statistics (lines 327-334) *)

(** [a / b] on two integers. *)
Definition py_int_div (a b : Z) : result pyfloat :=
  if b =? 0
  then Raise (mkExn ZeroDivisionError "division by zero")
  else Ok (Fin (Qred (inject_Z a / inject_Z b))).

(** Line 327. *)
Definition successful (st : run_state) : Z :=
  Z.of_nat (List.length (results st))
  - Z.of_nat (List.length (failed_addresses st)).

(** Line 334: the expression [successful/len(results)*100] alone.  In
    [main] it comes after the tables of lines 319-324, see [summary]. *)
Definition success_rate (st : run_state) : result pyfloat :=
  ratio <- py_int_div (successful st) (Z.of_nat (List.length (results st))) ;;
  Ok (fmul ratio (of_Z 100)).

(** Line 323: [pd.DataFrame(results)[['wallet_id', 'score']]].  The table
    built from an empty list has no columns, and the selection of the two
    columns raises KeyError ([None]); on a list of results it keeps every
    row. *)
Definition select_columns (rs : list WalletResult)
  : option (list WalletResult) :=
  match rs with
  | [] => None
  | _ :: _ => Some rs
  end.

(** Lines 318-334, the writing of the two files apart: the success rate is
    computed once the final table is built.  [None] is the KeyError of
    line 323, which the handler of line 348 logs and raises again, so that
    line 334 is not reached. *)
Definition summary (st : run_state) : option (result pyfloat) :=
  match select_columns (results st) with
  | None => None
  | Some _ => Some (success_rate st)
  end.

(** ** Reading traces *)

(** The attempts a trace makes, in order, and the seconds it sleeps. *)
Fixpoint requests (trace : list event) : list nat :=
  match trace with
  | [] => []
  | Request n :: rest => n :: requests rest
  | Sleep _ :: rest => requests rest
  end.

Fixpoint total_sleep (trace : list event) : Z :=
  match trace with
  | [] => 0
  | Request _ :: rest => total_sleep rest
  | Sleep seconds :: rest => seconds + total_sleep rest
  end.

(** ** Reading the specification

    The definitions below follow the words of the specification, not the
    code; the theorems compare the two. *)

(** The list of balance items of a payload: the [items] entry of its [data]
    entry when the payload has that shape, and no item otherwise. *)
Definition payload_items (payload : json) : list json :=
  match payload with
  | JDict top =>
      match dict_get top "data" with
      | Some (JDict d) =>
          match dict_get d "items" with
          | Some (JList items) => items
          | _ => []
          end
      | _ => []
      end
  | _ => []
  end.

Definition is_dict (j : json) : bool :=
  match j with
  | JDict _ => true
  | _ => false
  end.

(** The quoted value of an item when it is present, parses as a number and
    is positive. *)
Definition valid_quote (item : json) : option pyfloat :=
  match item with
  | JDict d =>
      match dict_get d "quote" with
      | None | Some JNull => None
      | Some raw =>
          match py_float float_of_str raw with
          | Ok q => if fgt q (of_Z 0) then Some q else None
          | Raise _ => None
          end
      end
  | _ => None
  end.

Fixpoint valid_quotes (items : list json) : list pyfloat :=
  match items with
  | [] => []
  | item :: rest =>
      match valid_quote item with
      | Some q => q :: valid_quotes rest
      | None => valid_quotes rest
      end
  end.

(** Sum of a list of floats, in the order of the list. *)
Definition fsum (qs : list pyfloat) : pyfloat := fold_left fadd qs (of_Z 0).

(** [m] is the maximum of [qs], and 0 when [qs] is empty. *)
Definition is_maximum (m : pyfloat) (qs : list pyfloat) : Prop :=
  match qs with
  | [] => m = of_Z 0
  | _ :: _ => In m qs /\ Forall (fun q => fle q m = true) qs
  end.

(** A payload has a structural error when it is not a mapping, when its
    [data] entry is not a mapping, when its [items] entry is a non-empty
    object other than a list, or when one of the items is not a mapping. *)
Definition items_error (items : json) : bool :=
  match items with
  | JList l => negb (forallb is_dict l)
  | _ => truthy items
  end.

Definition structural_error (payload : json) : bool :=
  match payload with
  | JDict top =>
      match dict_get top "data" with
      | None => false
      | Some (JDict d) =>
          match dict_get d "items" with
          | None => false
          | Some items => items_error items
          end
      | Some _ => true
      end
  | _ => true
  end.

(** The field types of the PortfolioFeatures record of the specification:
    [total_usd] and [largest_holding_usd] are floats that are at least 0,
    [num_assets] is an integer that is at least 0, and
    [portfolio_concentration] is a float of [0, 1]. *)
Record PortfolioFeatures (f : features) : Prop := {
  pf_total : fle (of_Z 0) (total_usd f) = true;
  pf_count : 0 <= num_assets f;
  pf_largest : fle (of_Z 0) (largest_holding_usd f) = true;
  pf_concentration :
    fle (of_Z 0) (portfolio_concentration f) = true
    /\ fle (portfolio_concentration f) (of_Z 1) = true
}.

(** What the model assumes of [numpy.log10]: it is exact at the two
    thresholds of the scorer and non-decreasing from 1 on. *)
Record log10_spec : Prop := {
  log10_100 : log10 (of_Z 100) = of_Z 2;
  log10_1000000 : log10 (of_Z 1000000) = of_Z 6;
  log10_monotone : forall x y,
    fle (of_Z 1) x = true -> fle x y = true ->
    fle (log10 x) (log10 y) = true
}.

(** The trace the specification describes for a run in which each of the
    [attempts] ends in a retryable failure: a request, then the backoff pause
    unless the attempt was the last one. *)
Fixpoint backoff_trace (retries : nat) (attempts : list nat) : list event :=
  match attempts with
  | [] => []
  | n :: rest =>
      Request n
      :: (if Z.of_nat n <? Z.of_nat retries - 1
          then [Sleep (Z.min (2 ^ Z.of_nat n) 30)]
          else [])
      ++ backoff_trace retries rest
  end.

(** ** Auxiliary definitions of the proofs *)

(** The failures of one attempt that reach the backoff step. *)
Inductive reaches_backoff : response -> Prop :=
| rb_timeout : reaches_backoff Timeout
| rb_request_error : reaches_backoff RequestError
| rb_unexpected : reaches_backoff UnexpectedError
| rb_http_error (status : Z) (body : option json) :
    400 <= status < 600 -> status <> 429 ->
    reaches_backoff (Reply status body)
| rb_no_data (status : Z) (d : list (string * json)) :
    ~ (400 <= status < 600) ->
    d <> [] -> dict_get d "errors" = None -> dict_get d "data" = None ->
    reaches_backoff (Reply status (Some (JDict d))).

(** The records the loop builds from the holdings [qs], and the last step
    of the extractor as a function. *)
Definition accumulate (qs : list pyfloat) (f : features) : features :=
  fold_left add_holding qs f.

Definition with_concentration (f : features) : features :=
  if fgt (total_usd f) (of_Z 0)
  then mkFeatures (total_usd f) (num_assets f) (largest_holding_usd f)
                  (np_div (largest_holding_usd f) (total_usd f))
  else f.

(** The holdings the extractor takes from a payload: none when the payload
    has a structural error. *)
Definition extracted_quotes (payload : json) : list pyfloat :=
  if structural_error payload then []
  else valid_quotes (payload_items payload).

(** What the loop maintains: the largest holding is non-negative and at most
    the total, and the three counters are zero together or positive
    together. *)
Record holdings_ok (f : features) : Prop := {
  ok_largest_nonneg : fle (of_Z 0) (largest_holding_usd f) = true;
  ok_largest_le_total : fle (largest_holding_usd f) (total_usd f) = true;
  ok_count_nonneg : 0 <= num_assets f;
  ok_together :
    (num_assets f = 0 /\ total_usd f = of_Z 0
     /\ largest_holding_usd f = of_Z 0)
    \/ (0 < num_assets f /\ fgt (total_usd f) (of_Z 0) = true
        /\ fgt (largest_holding_usd f) (of_Z 0) = true)
}.

(** The last two steps of [normalize_portfolio_size]: the affine map of the
    logarithm (with the values [log10_spec] gives the two thresholds) and the
    clamp to [0, 1]. *)
Definition scale (log_value : pyfloat) : pyfloat :=
  np_div (fsub log_value (of_Z 2)) (fsub (of_Z 6) (of_Z 2)).

Definition clamp (x : pyfloat) : pyfloat :=
  py_min (py_max x (of_Z 0)) (of_Z 1).

(** What a run maintains: scores between 0 and 1000, a zero score and one of
    two reasons for every failure, and no more failures than results. *)
Record run_ok (st : run_state) : Prop := {
  ok_scores : Forall (fun r => 0 <= score r <= 1000) (results st);
  ok_failures :
    Forall (fun fr => In (mkResult (fst fr) 0) (results st)
                      /\ (snd fr = "Failed to fetch data"
                          \/ snd fr = "cannot convert float NaN to integer"))
           (failed_addresses st);
  ok_lengths :
    (List.length (failed_addresses st) <= List.length (results st))%nat
}.

(** ** Instances of the parameters and sample inputs *)

(** An instance of the string parser: it reads [inf], [-inf], [nan] and
    unsigned decimal integers, and rejects every other string. *)
Fixpoint digits_value (s : string) (acc : Z) : option Z :=
  match s with
  | EmptyString => Some acc
  | String c rest =>
      let n := Z.of_nat (nat_of_ascii c) in
      if (48 <=? n) && (n <=? 57)
      then digits_value rest (10 * acc + (n - 48))
      else None
  end.

Definition float_of_literal (s : string) : option pyfloat :=
  if String.eqb s "inf" then Some PInf
  else if String.eqb s "-inf" then Some NInf
  else if String.eqb s "nan" then Some NaN
  else if String.eqb s "" then None
  else option_map of_Z (digits_value s 0).

(** Instances of the string methods, on ASCII: [lower_ascii] maps the
    letters A-Z to a-z, [strip_spaces] removes the spaces at both ends. *)
Definition ascii_lower (c : ascii) : ascii :=
  let n := nat_of_ascii c in
  if ((65 <=? n) && (n <=? 90))%nat then ascii_of_nat (n + 32) else c.

Fixpoint lower_ascii (s : string) : string :=
  match s with
  | EmptyString => EmptyString
  | String c rest => String (ascii_lower c) (lower_ascii rest)
  end.

Fixpoint lstrip (s : string) : string :=
  match s with
  | String " " rest => lstrip rest
  | _ => s
  end.

Fixpoint rstrip (s : string) : string :=
  match s with
  | EmptyString => EmptyString
  | String c rest =>
      match c, rstrip rest with
      | " "%char, EmptyString => EmptyString
      | _, rest' => String c rest'
      end
  end.

Definition strip_spaces (s : string) : string := rstrip (lstrip s).

(** An instance of the logarithm: the number of decades from 10 to
    1,000,000 that its argument has reached, that is the integer part of the
    decimal logarithm on the range the scorer distinguishes. *)
Definition decades : list Q := [10; 100; 1000; 10000; 100000; 1000000]%Q.

Definition decades_reached (q : Q) (ts : list Q) : Z :=
  Z.of_nat (List.length (filter (fun t => Qleb t q) ts)).

Definition log10_decades (x : pyfloat) : pyfloat :=
  match x with
  | Fin q =>
      if Qltb 0 q then of_Z (decades_reached q decades)
      else if Qeqb q 0 then NInf
      else NaN
  | PInf => PInf
  | NInf | NaN => NaN
  end.

(** The payload of the first end-to-end scenario of the specification. *)
Definition scenario_item (symbol : string) : json :=
  JDict [("quote", JInt 500000); ("symbol", JStr symbol)].

Definition scenario_payload : json :=
  JDict [("data",
          JDict [("items", JList [scenario_item "ETH"; scenario_item "USDC"])])].

Definition scenario_features : features :=
  mkFeatures (of_Z 1000000) 2 (of_Z 500000) (Fin (1 # 2)).

(** A network that times out at every attempt, and one that answers the
    scenario payload at once. *)
Definition always_timeout : nat -> response := fun _ => Timeout.
Definition answers (payload : json) : nat -> response :=
  fun _ => Reply 200 (Some payload).

(** The payload whose only holding is quoted at infinity, as the JSON number
    [1e999] decodes. *)
Definition infinite_payload : json :=
  JDict [("data", JDict [("items", JList [JDict [("quote", JFloat PInf)]])])].

(** The payload that carries the balance items [items]. *)
Definition payload_of_items (items : list json) : json :=
  JDict [("data", JDict [("items", JList items)])].

(** A payload whose second item is the number 7 instead of a mapping. *)
Definition payload_with_number_item : json :=
  JDict [("data",
          JDict [("items", JList [JDict [("quote", JInt 5)]; JInt 7])])].

(** A payload whose second item is a string instead of a mapping. *)
Definition payload_with_string_item : json :=
  JDict [("data",
          JDict [("items", JList [JDict [("quote", JFloat (Fin 12.5))];
                                  JStr "n/a"])])].

(* ================================================================== *)
(** * Properties *)
(* ================================================================== *)

(** ** Comparisons of rationals and floats *)

#[local] Arguments Qred : simpl never.
#[local] Arguments Qplus : simpl never.
#[local] Arguments Qminus : simpl never.
#[local] Arguments Qmult : simpl never.
#[local] Arguments Qdiv : simpl never.
#[local] Arguments Qopp : simpl never.
#[local] Arguments Qcompare : simpl never.
#[local] Arguments inject_Z : simpl never.

Lemma Qltb_lt (a b : Q) : Qltb a b = true <-> (a < b)%Q.
Proof.
  unfold Qltb. rewrite Qlt_alt. destruct (a ?= b)%Q; split; congruence.
Qed.

Lemma Qleb_le (a b : Q) : Qleb a b = true <-> (a <= b)%Q.
Proof.
  unfold Qleb. rewrite Qle_alt. destruct (a ?= b)%Q; split; congruence.
Qed.

Lemma Qeqb_eq (a b : Q) : Qeqb a b = true <-> (a == b)%Q.
Proof.
  unfold Qeqb. rewrite Qeq_alt. destruct (a ?= b)%Q; split; congruence.
Qed.

Lemma Qltb_ge (a b : Q) : Qltb a b = false <-> (b <= a)%Q.
Proof.
  rewrite <- not_true_iff_false, Qltb_lt. split; intro H.
  - apply Qnot_lt_le, H.
  - apply Qle_not_lt, H.
Qed.

Lemma Qleb_gt (a b : Q) : Qleb a b = false <-> (b < a)%Q.
Proof.
  rewrite <- not_true_iff_false, Qleb_le. split; intro H.
  - apply Qnot_le_lt, H.
  - apply Qlt_not_le, H.
Qed.

Lemma Qeqb_neq (a b : Q) : Qeqb a b = false <-> ~ (a == b)%Q.
Proof.
  rewrite <- not_true_iff_false, Qeqb_eq. tauto.
Qed.

(** Turns the boolean comparisons of the context and the goal into
    propositions over [Q], where [lra] works; [Qred] disappears on the way. *)
Ltac q_props :=
  repeat match goal with
  | H : Qltb _ _ = true |- _ => apply Qltb_lt in H
  | H : Qltb _ _ = false |- _ => apply Qltb_ge in H
  | H : Qleb _ _ = true |- _ => apply Qleb_le in H
  | H : Qleb _ _ = false |- _ => apply Qleb_gt in H
  | H : Qeqb _ _ = true |- _ => apply Qeqb_eq in H
  | H : Qeqb _ _ = false |- _ => apply Qeqb_neq in H
  | |- Qltb _ _ = true => apply Qltb_lt
  | |- Qltb _ _ = false => apply Qltb_ge
  | |- Qleb _ _ = true => apply Qleb_le
  | |- Qleb _ _ = false => apply Qleb_gt
  | |- Qeqb _ _ = true => apply Qeqb_eq
  | |- Qeqb _ _ = false => apply Qeqb_neq
  end;
  repeat match goal with
  | H : context [Qred ?q] |- _ => rewrite (Qred_correct q) in H
  | |- context [Qred ?q] => rewrite (Qred_correct q)
  end;
  unfold inject_Z, Qdiv in *; cbn [Qinv Qnum Qden] in *.

(** ** The batch runner *)

Lemma process_wallet_appends (st : run_state) (w : string * (nat -> response)) :
  exists (s : Z) (fs : list FailureRecord),
    process_wallet st w
    = mkState (results st ++ [mkResult (fst w) s]) (failed_addresses st ++ fs)
    /\ forall st', process_wallet st' w
                   = mkState (results st' ++ [mkResult (fst w) s])
                             (failed_addresses st' ++ fs).
Proof.
  destruct w as [addr network]. unfold process_wallet, wallet_try.
  destruct (fst (fetch_wallet_data network 3)) as [data|].
  - destruct (negb (truthy data)).
    + exists 0, [(addr, "Failed to fetch data")]. split; reflexivity.
    + destruct (bind (extract_features data) _) as [s|e].
      * exists s, []. unfold politeness_delay, append_result; simpl.
        split; intros; rewrite app_nil_r; reflexivity.
      * exists 0, [(addr, message e)]. split; reflexivity.
  - exists 0, [(addr, "Failed to fetch data")]. split; reflexivity.
Qed.

Lemma run_from_app (st : run_state) (b1 b2 : list (string * (nat -> response))) :
  run_from st (b1 ++ b2) = run_from (run_from st b1) b2.
Proof. unfold run_from. apply fold_left_app. Qed.

(** The loop only appends: what a batch adds does not depend on the state it
    starts from. *)
Lemma run_from_frame (batch : list (string * (nat -> response))) :
  forall st,
    results (run_from st batch) = results st ++ results (main batch)
    /\ failed_addresses (run_from st batch)
       = failed_addresses st ++ failed_addresses (main batch).
Proof.
  unfold main.
  induction batch as [|w batch IH]; intro st; simpl.
  - rewrite !app_nil_r. split; reflexivity.
  - destruct (process_wallet_appends st w) as (s & fs & Hst & Hall).
    destruct (IH (process_wallet st w)) as [IHr IHf].
    destruct (IH (process_wallet initial_state w)) as [IHr0 IHf0].
    rewrite IHr, IHf, IHr0, IHf0, Hst, (Hall initial_state). simpl.
    rewrite <- !app_assoc. split; reflexivity.
Qed.

Lemma run_from_wallets (batch : list (string * (nat -> response))) :
  forall st,
    map wallet_id (results (run_from st batch))
    = map wallet_id (results st) ++ map fst batch.
Proof.
  induction batch as [|w batch IH]; intro st; simpl.
  - rewrite app_nil_r. reflexivity.
  - rewrite IH.
    destruct (process_wallet_appends st w) as (s & fs & Hst & _).
    rewrite Hst. simpl. rewrite map_app, <- app_assoc. reflexivity.
Qed.

(** C1: for every batch of addresses and every behaviour of the network, the
    batch runner produces exactly one result per input address, in the order
    of the input. *)
Theorem C1_one_result_per_address (batch : list (string * (nat -> response))) :
  map wallet_id (results (main batch)) = map fst batch
  /\ List.length (results (main batch)) = List.length batch.
Proof.
  assert (H : map wallet_id (results (main batch)) = map fst batch)
    by apply (run_from_wallets batch initial_state).
  split; [exact H|].
  rewrite <- (List.length_map wallet_id), H. apply List.length_map.
Qed.

Lemma process_wallet_fetch_failed (st : run_state) (addr : string)
  (network : nat -> response) :
  fst (fetch_wallet_data network 3) = None ->
  process_wallet st (addr, network) = record_fetch_failure addr st.
Proof.
  intro H. unfold process_wallet, wallet_try. rewrite H. reflexivity.
Qed.

(** C4: when the fetcher returns [None] for an address, the batch runner
    appends the failure record with reason "Failed to fetch data" and a result
    with score 0 for it, and goes on with the remaining addresses, which are
    processed as they would be on their own. *)
Theorem C4_fetch_failure_recorded
  (pre post : list (string * (nat -> response)))
  (addr : string) (network : nat -> response) :
  fst (fetch_wallet_data network 3) = None ->
  results (main (pre ++ (addr, network) :: post))
  = results (main pre) ++ mkResult addr 0 :: results (main post)
  /\ failed_addresses (main (pre ++ (addr, network) :: post))
     = failed_addresses (main pre)
       ++ (addr, "Failed to fetch data") :: failed_addresses (main post).
Proof.
  intro Hnone.
  assert (Hsplit : main (pre ++ (addr, network) :: post)
                   = run_from (record_fetch_failure addr (main pre)) post).
  { unfold main. rewrite run_from_app. unfold run_from at 1.
    cbn [fold_left].
    rewrite (process_wallet_fetch_failed _ _ _ Hnone). reflexivity. }
  rewrite Hsplit.
  destruct (run_from_frame post (record_fetch_failure addr (main pre)))
    as [Hr Hf].
  rewrite Hr, Hf. simpl. rewrite <- !app_assoc. split; reflexivity.
Qed.

(** ** The fetcher *)

Lemma attempt_reaches_backoff (r : response) (n : nat) :
  reaches_backoff r -> attempt r n = Next.
Proof.
  intros [ | | | status body Hs H429 | status d Hs Hd He Hdata];
    try reflexivity; unfold attempt, attempt_try; simpl.
  - destruct (Z.eqb_spec status 429) as [->|_]; [lia|].
    unfold raise_for_status.
    replace ((400 <=? status) && (status <? 600)) with true
      by (symmetry; apply andb_true_iff; split; [apply Z.leb_le|apply Z.ltb_lt];
          lia).
    reflexivity.
  - destruct (Z.eqb_spec status 429) as [->|_]; [lia|].
    unfold raise_for_status.
    replace ((400 <=? status) && (status <? 600)) with false.
    2:{ symmetry. apply andb_false_iff.
        destruct (Z.leb_spec 400 status); [right|left; reflexivity].
        apply Z.ltb_ge. lia. }
    simpl. destruct d as [|kv d']; [congruence|]. simpl in He, Hdata |- *.
    destruct kv as [k v]. rewrite He, Hdata. reflexivity.
Qed.

(** A reply whose body is a mapping with an [errors] entry leaves the [try]
    block through [continue], without any pause. *)
Lemma attempt_api_errors (status : Z) (d : list (string * json)) (v : json)
  (n : nat) :
  ~ (400 <= status < 600) -> dict_get d "errors" = Some v ->
  attempt (Reply status (Some (JDict d))) n = Continue [].
Proof.
  intros Hs He. unfold attempt, attempt_try; simpl.
  destruct (Z.eqb_spec status 429) as [->|_]; [lia|].
  unfold raise_for_status.
  replace ((400 <=? status) && (status <? 600)) with false.
  2:{ symmetry. apply andb_false_iff.
      destruct (Z.leb_spec 400 status); [right|left; reflexivity].
      apply Z.ltb_ge. lia. }
  simpl. destruct d as [|kv d']; [discriminate|].
  cbn [truthy negb]. cbn [py_in py_get bind]. rewrite He. reflexivity.
Qed.

(** When every attempt ends in a failure that reaches the backoff step, the
    fetcher gives up with the trace the specification describes. *)
Lemma fetch_backoff_trace (network : nat -> response) (retries : nat) :
  (forall n, reaches_backoff (network n)) ->
  fetch_wallet_data network retries
  = (None, backoff_trace retries (seq 0 retries)).
Proof.
  intro H. unfold fetch_wallet_data.
  generalize (seq 0 retries) as attempts.
  induction attempts as [|n rest IH]; simpl; [reflexivity|].
  rewrite (attempt_reaches_backoff n (H n)), IH. reflexivity.
Qed.

(** C5, at the failing input: three replies that carry an [errors] entry.
    The fetcher retries at once, twice, where a pause of 1 and then of 2
    seconds is specified; the same run with three timeouts takes them. *)
Theorem C5_api_errors_skip_backoff :
  let errors_reply := Reply 200 (Some (JDict [("errors", JBool true)])) in
  fetch_wallet_data (fun _ => errors_reply) 3
  = (None, [Request 0; Request 1; Request 2])%nat
  /\ backoff_trace 3 (seq 0 3)
     = [Request 0; Sleep 1; Request 1; Sleep 2; Request 2]%nat
  /\ snd (fetch_wallet_data (fun _ => errors_reply) 3)
     <> backoff_trace 3 (seq 0 3)
  /\ fetch_wallet_data (fun _ => Timeout) 3
     = (None, backoff_trace 3 (seq 0 3)).
Proof.
  cbv zeta. split; [reflexivity|]. split; [reflexivity|].
  split; [discriminate|reflexivity].
Qed.

(** ** Order and arithmetic of floats *)

Lemma fle_not_nan (x y : pyfloat) :
  fle x y = true -> is_nan x = false /\ is_nan y = false.
Proof. destruct x, y; simpl; intro H; split; congruence. Qed.

Lemma flt_not_nan (x y : pyfloat) :
  flt x y = true -> is_nan x = false /\ is_nan y = false.
Proof. destruct x, y; simpl; intro H; split; congruence. Qed.

Lemma fle_refl (x : pyfloat) : is_nan x = false -> fle x x = true.
Proof. destruct x; simpl; intro H; try congruence. q_props. lra. Qed.

Lemma flt_fle (x y : pyfloat) : flt x y = true -> fle x y = true.
Proof.
  destruct x, y; simpl; intro H; try congruence. q_props. lra.
Qed.

Lemma flt_false_fle (x y : pyfloat) :
  is_nan x = false -> is_nan y = false -> flt x y = false -> fle y x = true.
Proof.
  destruct x, y; simpl; intros Hx Hy H; try congruence. q_props. lra.
Qed.

Lemma fle_false_flt (x y : pyfloat) :
  is_nan x = false -> is_nan y = false -> fle x y = false -> flt y x = true.
Proof.
  destruct x, y; simpl; intros Hx Hy H; try congruence. q_props. lra.
Qed.

Lemma fle_trans (x y z : pyfloat) :
  fle x y = true -> fle y z = true -> fle x z = true.
Proof.
  destruct x, y, z; simpl; intros H1 H2; try congruence. q_props. lra.
Qed.

Lemma flt_fle_trans (x y z : pyfloat) :
  flt x y = true -> fle y z = true -> flt x z = true.
Proof.
  destruct x, y, z; simpl; intros H1 H2; try congruence. q_props. lra.
Qed.

Lemma flt_fle_false (x y : pyfloat) : flt x y = true -> fle y x = false.
Proof.
  destruct x, y; simpl; intro H; try congruence. q_props. lra.
Qed.

Lemma fle_flt_false (x y : pyfloat) : fle x y = true -> flt y x = false.
Proof.
  destruct x, y; simpl; intro H; try congruence. q_props. lra.
Qed.

Lemma py_max_ge_l (a b : pyfloat) :
  is_nan a = false -> fle a (py_max a b) = true.
Proof.
  intro Ha. unfold py_max, fgt. destruct (flt a b) eqn:E.
  - apply flt_fle, E.
  - apply fle_refl, Ha.
Qed.

Lemma py_max_ge_r (a b : pyfloat) :
  is_nan a = false -> is_nan b = false -> fle b (py_max a b) = true.
Proof.
  intros Ha Hb. unfold py_max, fgt. destruct (flt a b) eqn:E.
  - apply fle_refl, Hb.
  - apply flt_false_fle; assumption.
Qed.

Lemma py_max_cases (a b : pyfloat) : py_max a b = a \/ py_max a b = b.
Proof. unfold py_max. destruct (fgt b a); auto. Qed.

(** Adding a positive float to a non-negative one. *)
Lemma fadd_positive (t q : pyfloat) :
  fle (of_Z 0) t = true -> fgt q (of_Z 0) = true ->
  fgt (fadd t q) (of_Z 0) = true
  /\ fle t (fadd t q) = true /\ fle q (fadd t q) = true.
Proof.
  unfold fgt, of_Z.
  destruct t, q; simpl; intros Ht Hq; try congruence; repeat split;
    q_props; lra.
Qed.

(** ** The feature extractor *)

Lemma process_item_dict (d : list (string * json)) (f : features) :
  process_item (JDict d) f
  = Ok (match valid_quote (JDict d) with
        | Some q => add_holding f q
        | None => f
        end).
Proof.
  unfold process_item, item_try, item_handler, valid_quote, py_get.
  destruct (dict_get d "quote") as [raw|]; [|reflexivity].
  destruct (dict_get d "contract_ticker_symbol");
    destruct raw; try reflexivity; cbn [bind];
    match goal with
    | |- context [py_float float_of_str ?x] =>
        destruct (py_float float_of_str x) as [q|e];
        [ destruct (fgt q (of_Z 0)); reflexivity
        | destruct (is_kind (kind e) ValueError || is_kind (kind e) TypeError);
          reflexivity ]
    end.
Qed.

Lemma process_item_not_dict (item : json) (f : features) :
  is_dict item = false -> exists e, process_item item f = Raise e.
Proof.
  destruct item; simpl; intro H; try discriminate; eexists; reflexivity.
Qed.

Lemma process_items_dicts (l : list json) :
  forallb is_dict l = true ->
  forall f, process_items l f = Ok (accumulate (valid_quotes l) f).
Proof.
  induction l as [|item l IH]; intros H f; [reflexivity|].
  cbn [forallb] in H. apply andb_true_iff in H. destruct H as [Hd Hl].
  destruct item; try discriminate.
  cbn [process_items valid_quotes]. rewrite process_item_dict. cbn [bind].
  rewrite (IH Hl). destruct (valid_quote (JDict d)); reflexivity.
Qed.

Lemma process_items_error (l : list json) :
  forallb is_dict l = false ->
  forall f, exists e, process_items l f = Raise e.
Proof.
  induction l as [|item l IH]; intros H f; [discriminate|].
  cbn [forallb] in H. cbn [process_items].
  destruct (is_dict item) eqn:Hd.
  - destruct item; try discriminate.
    rewrite process_item_dict. cbn [bind]. apply IH, H.
  - destruct (process_item_not_dict item f Hd) as [e He].
    rewrite He. exists e. reflexivity.
Qed.

Lemma positive_not_zero (t : pyfloat) :
  fgt t (of_Z 0) = true -> feq t (of_Z 0) = false.
Proof.
  unfold fgt. destruct t; simpl; intro H; try congruence. q_props. lra.
Qed.

Lemma set_concentration_ok (f : features) :
  set_concentration f = Ok (with_concentration f).
Proof.
  unfold set_concentration, with_concentration, py_div.
  destruct (fgt (total_usd f) (of_Z 0)) eqn:E; [|reflexivity].
  change (Fin 0%Q) with (of_Z 0). rewrite (positive_not_zero _ E). reflexivity.
Qed.

Lemma valid_quote_positive (item : json) (q : pyfloat) :
  valid_quote item = Some q -> fgt q (of_Z 0) = true.
Proof.
  unfold valid_quote. destruct item; try discriminate.
  destruct (dict_get d "quote") as [raw|]; [|discriminate].
  destruct raw; try discriminate;
    match goal with
    | |- context [py_float float_of_str ?x] =>
        destruct (py_float float_of_str x) as [q'|e]; [|discriminate];
        destruct (fgt q' (of_Z 0)) eqn:E; intro H; inversion H; subst; exact E
    end.
Qed.

Lemma valid_quotes_positive (l : list json) :
  Forall (fun q => fgt q (of_Z 0) = true) (valid_quotes l).
Proof.
  induction l as [|item l IH]; cbn [valid_quotes]; [constructor|].
  destruct (valid_quote item) as [q|] eqn:E; [|exact IH].
  constructor; [apply (valid_quote_positive _ E)|exact IH].
Qed.

Lemma extracted_quotes_positive (payload : json) :
  Forall (fun q => fgt q (of_Z 0) = true) (extracted_quotes payload).
Proof.
  unfold extracted_quotes. destruct (structural_error payload);
    [constructor|apply valid_quotes_positive].
Qed.

Lemma extracted_quotes_well_formed (payload : json) :
  forallb is_dict (payload_items payload) = true ->
  extracted_quotes payload = valid_quotes (payload_items payload).
Proof.
  unfold extracted_quotes, structural_error, payload_items.
  destruct payload; try reflexivity.
  destruct (dict_get d "data") as [dd|]; [|reflexivity].
  destruct dd; try reflexivity.
  destruct (dict_get d0 "items") as [items|]; [|reflexivity].
  destruct items; cbn [items_error];
    try (intros _; destruct (truthy _); reflexivity).
  intros ->. reflexivity.
Qed.

Lemma chars_not_dicts (s : string) : s <> "" -> forallb is_dict (chars s) = false.
Proof. destruct s; [congruence|reflexivity]. Qed.

(** The outer [try] block, case by case: it raises exactly on the payloads
    with a structural error, and otherwise accumulates the valid quotes of
    the items. *)
Lemma extract_try_cases (payload : json) :
  if structural_error payload
  then exists e, extract_try payload = Raise e
  else extract_try payload
       = Ok (with_concentration
               (accumulate (valid_quotes (payload_items payload))
                           zero_features)).
Proof.
  unfold structural_error, payload_items, extract_try.
  destruct payload; try (eexists; reflexivity).
  cbn [py_get]. destruct (dict_get d "data") as [dd|]; [|reflexivity].
  cbn [bind].
  destruct dd; try (eexists; reflexivity).
  cbn [py_get]. destruct (dict_get d0 "items") as [items|]; [|reflexivity].
  cbn [bind].
  destruct items; cbn [items_error].
  - reflexivity.
  - destruct b; [eexists|]; reflexivity.
  - cbn [truthy]. destruct (negb (z =? 0)); [eexists|]; reflexivity.
  - cbn [truthy]. destruct (negb (feq f (Fin 0%Q))); [eexists|]; reflexivity.
  - cbn [truthy]. destruct (String.eqb_spec s ""); [reflexivity|].
    cbn [negb py_iter bind].
    destruct (process_items_error (chars s) (chars_not_dicts n) zero_features)
      as [e He].
    rewrite He. exists e. reflexivity.
  - destruct l as [|item l]; [reflexivity|].
    cbn [truthy negb py_iter bind].
    destruct (forallb is_dict (item :: l)) eqn:E; cbn [negb].
    + rewrite (process_items_dicts _ E). cbn [bind].
      apply set_concentration_ok.
    + destruct (process_items_error _ E zero_features) as [e He].
      rewrite He. exists e. reflexivity.
  - destruct d1 as [|[k v] d1]; [reflexivity|].
    cbn [truthy negb py_iter bind map fst].
    destruct (process_items_error (JStr k :: map (fun kv => JStr (fst kv)) d1)
                                  eq_refl zero_features) as [e He].
    rewrite He. exists e. reflexivity.
Qed.

Lemma extract_features_shape (payload : json) :
  extract_features payload
  = Ok (with_concentration (accumulate (extracted_quotes payload)
                                       zero_features)).
Proof.
  unfold extract_features, extracted_quotes.
  pose proof (extract_try_cases payload) as H.
  destruct (structural_error payload).
  - destruct H as [e ->]. reflexivity.
  - rewrite H. reflexivity.
Qed.

Lemma payload_items_empty (payload : json) :
  payload_items payload = [] -> extracted_quotes payload = [].
Proof.
  unfold extracted_quotes. intros ->. destruct (structural_error payload);
    reflexivity.
Qed.

(** C7: [extract_features] always returns a record.  A payload whose list of
    balance items is empty or missing gives the all-zero record, and on a
    payload with a structural error the exception raised inside is absorbed
    and the all-zero record is returned. *)
Theorem C7_extract_features_total (payload : json) :
  (exists f, extract_features payload = Ok f)
  /\ (payload_items payload = [] ->
      extract_features payload = Ok zero_features)
  /\ (structural_error payload = true ->
      (exists e, extract_try payload = Raise e)
      /\ extract_features payload = Ok zero_features).
Proof.
  split; [|split].
  - rewrite extract_features_shape. eexists; reflexivity.
  - intro H. rewrite extract_features_shape, (payload_items_empty _ H).
    reflexivity.
  - intro H. pose proof (extract_try_cases payload) as Hc.
    rewrite H in Hc. split; [exact Hc|].
    unfold extract_features. destruct Hc as [e ->]. reflexivity.
Qed.

Lemma accumulate_fields (qs : list pyfloat) :
  forall f,
    total_usd (accumulate qs f) = fold_left fadd qs (total_usd f)
    /\ num_assets (accumulate qs f) = num_assets f + Z.of_nat (List.length qs)
    /\ largest_holding_usd (accumulate qs f)
       = fold_left py_max qs (largest_holding_usd f)
    /\ portfolio_concentration (accumulate qs f) = portfolio_concentration f.
Proof.
  induction qs as [|q qs IH]; intro f.
  - cbn. repeat split. lia.
  - cbn [accumulate fold_left].
    destruct (IH (add_holding f q)) as (Ht & Hn & Hl & Hc).
    unfold accumulate in *. rewrite Ht, Hn, Hl, Hc. cbn [add_holding
      total_usd num_assets largest_holding_usd portfolio_concentration
      List.length].
    repeat split. lia.
Qed.

Lemma zero_features_ok : holdings_ok zero_features.
Proof. constructor; cbn; try reflexivity; try lia. left. repeat split. Qed.

Lemma add_holding_ok (f : features) (q : pyfloat) :
  holdings_ok f -> fgt q (of_Z 0) = true -> holdings_ok (add_holding f q).
Proof.
  intros [Hl Hlt Hn _] Hq.
  assert (Ht : fle (of_Z 0) (total_usd f) = true)
    by (eapply fle_trans; eassumption).
  destruct (fadd_positive _ _ Ht Hq) as (Hpos & Htq & Hqq).
  destruct (fle_not_nan _ _ Hl) as [_ Hnl].
  destruct (flt_not_nan _ _ Hq) as [_ Hnq].
  constructor; cbn [add_holding total_usd num_assets largest_holding_usd].
  - eapply fle_trans; [exact Hl|]. apply py_max_ge_l, Hnl.
  - destruct (py_max_cases (largest_holding_usd f) q) as [-> | ->].
    + eapply fle_trans; eassumption.
    + exact Hqq.
  - lia.
  - right. repeat split; [lia|exact Hpos|].
    unfold fgt in *. eapply flt_fle_trans; [exact Hq|].
    apply py_max_ge_r; assumption.
Qed.

Lemma accumulate_ok (qs : list pyfloat) :
  Forall (fun q => fgt q (of_Z 0) = true) qs ->
  forall f, holdings_ok f -> holdings_ok (accumulate qs f).
Proof.
  induction 1 as [|q qs Hq _ IH]; intros f Hf; [exact Hf|].
  cbn [accumulate fold_left]. apply IH, add_holding_ok; assumption.
Qed.

Lemma with_concentration_fields (f : features) :
  total_usd (with_concentration f) = total_usd f
  /\ num_assets (with_concentration f) = num_assets f
  /\ largest_holding_usd (with_concentration f) = largest_holding_usd f.
Proof.
  unfold with_concentration.
  destruct (fgt (total_usd f) (of_Z 0)); repeat split.
Qed.

Lemma with_concentration_ok (f : features) :
  holdings_ok f -> holdings_ok (with_concentration f).
Proof.
  intros [H1 H2 H3 H4].
  destruct (with_concentration_fields f) as (Ht & Hn & Hl).
  constructor; rewrite ?Ht, ?Hn, ?Hl; assumption.
Qed.

(** The running maximum of the loop is the maximum of the holdings. *)
Lemma fold_max_spec (qs : list pyfloat) :
  Forall (fun q => is_nan q = false) qs ->
  forall m, is_nan m = false ->
    (fold_left py_max qs m = m \/ In (fold_left py_max qs m) qs)
    /\ fle m (fold_left py_max qs m) = true
    /\ Forall (fun q => fle q (fold_left py_max qs m) = true) qs.
Proof.
  induction 1 as [|q qs Hq _ IH]; intros m Hm; cbn [fold_left].
  - repeat split; [left; reflexivity|apply fle_refl, Hm|constructor].
  - assert (Hm' : is_nan (py_max m q) = false)
      by (destruct (py_max_cases m q) as [-> | ->]; assumption).
    destruct (IH _ Hm') as (Hin & Hle & Hall).
    repeat split.
    + destruct Hin as [Heq | Hin]; [|right; right; exact Hin].
      rewrite Heq. destruct (py_max_cases m q) as [-> | ->];
        [left; reflexivity|right; left; reflexivity].
    + eapply fle_trans; [apply (py_max_ge_l m q Hm)|exact Hle].
    + constructor; [|exact Hall].
      eapply fle_trans; [apply (py_max_ge_r m q Hm Hq)|exact Hle].
Qed.

Lemma fold_max_is_maximum (qs : list pyfloat) :
  Forall (fun q => fgt q (of_Z 0) = true) qs ->
  is_maximum (fold_left py_max qs (of_Z 0)) qs.
Proof.
  intro Hpos.
  assert (Hnan : Forall (fun q => is_nan q = false) qs).
  { eapply Forall_impl; [|exact Hpos]. intros q Hq.
    apply (flt_not_nan _ _ Hq). }
  destruct (fold_max_spec Hnan (of_Z 0) eq_refl) as (Hin & _ & Hall).
  destruct qs as [|q qs]; [reflexivity|].
  split; [|exact Hall].
  destruct Hin as [Heq | Hin]; [|exact Hin]. exfalso.
  inversion Hpos as [|? ? Hq _]; subst.
  inversion Hall as [|? ? Hle _]; subst.
  rewrite Heq in Hle. unfold fgt in Hq.
  rewrite (flt_fle_false _ _ Hq) in Hle. discriminate.
Qed.

Lemma extracted_features_ok (payload : json) :
  holdings_ok (with_concentration (accumulate (extracted_quotes payload)
                                              zero_features)).
Proof.
  apply with_concentration_ok, accumulate_ok;
    [apply extracted_quotes_positive|apply zero_features_ok].
Qed.

(** What the extractor guarantees.  For every payload the returned features
    satisfy [largest_holding_usd <= total_usd], and the concentration is
    their quotient when the total is positive and 0 otherwise; for every
    payload whose balance items are all mappings, [total_usd] is the sum of
    the quotes that parse as numbers and are positive, [num_assets] their
    count and [largest_holding_usd] their maximum, 0 if there is none. *)
Lemma extract_features_invariant (payload : json) :
  exists f,
    extract_features payload = Ok f
    /\ fle (largest_holding_usd f) (total_usd f) = true
    /\ (if fgt (total_usd f) (of_Z 0)
        then py_div (largest_holding_usd f) (total_usd f)
             = Ok (portfolio_concentration f)
        else portfolio_concentration f = of_Z 0)
    /\ (forallb is_dict (payload_items payload) = true ->
        let qs := valid_quotes (payload_items payload) in
        total_usd f = fsum qs
        /\ num_assets f = Z.of_nat (List.length qs)
        /\ is_maximum (largest_holding_usd f) qs).
Proof.
  eexists. split; [apply extract_features_shape|].
  pose proof (extracted_features_ok payload) as Hok.
  pose proof (extracted_quotes_positive payload) as Hpos.
  set (qs := extracted_quotes payload) in *.
  destruct (accumulate_fields qs zero_features) as (Ht & Hn & Hl & Hc).
  destruct (with_concentration_fields (accumulate qs zero_features))
    as (Ht' & Hn' & Hl').
  split; [apply Hok|]. split.
  - unfold with_concentration at 1 2 3 4 5.
    destruct (fgt (total_usd (accumulate qs zero_features)) (of_Z 0)) eqn:E.
    + cbn [total_usd largest_holding_usd portfolio_concentration].
      rewrite E. unfold py_div. change (Fin 0%Q) with (of_Z 0).
      rewrite (positive_not_zero _ E). reflexivity.
    + rewrite E. exact Hc.
  - intro Hd. cbn zeta.
    rewrite <- (extracted_quotes_well_formed _ Hd). fold qs.
    rewrite Ht', Hn', Hl', Ht, Hn, Hl. repeat split.
    apply fold_max_is_maximum, Hpos.
Qed.

(** C6: the extractor does not return the sum, the count and the maximum of
    the valid quotes on every payload.  On [payload_with_number_item] the
    first item is a holding of 5; at the second item, the number 7, [item.get]
    raises in the [try] block of the loop, and so does the log line of its
    handler (line 153), which calls [item.get] again: the [continue] of the
    handler is not reached, the exception leaves the loop and the outer
    handler returns the all-zero record, the holding of 5 lost.  The same
    handler does reach its [continue] on a mapping: an item whose quote is an
    integer too large for a float is skipped and the holding kept. *)
Theorem C6_non_mapping_item_discards_holdings :
  let payload := payload_with_number_item in
  let qs := valid_quotes (payload_items payload) in
  let held := add_holding zero_features (of_Z 5) in
  let no_get := mkExn AttributeError "'int' object has no attribute 'get'" in
  qs = [of_Z 5]
  /\ process_item (JDict [("quote", JInt 5)]) zero_features = Ok held
  /\ item_try (JInt 7) held = Raise no_get
  /\ item_handler (JInt 7) held no_get = Raise no_get
  /\ extract_try payload = Raise no_get
  /\ extract_features payload = Ok zero_features
  /\ total_usd zero_features <> fsum qs
  /\ num_assets zero_features <> Z.of_nat (List.length qs)
  /\ ~ is_maximum (largest_holding_usd zero_features) qs
  /\ extract_features
       (payload_of_items [JDict [("quote", JInt 5)];
                          JDict [("quote", JInt (2 ^ 1024))]])
     = Ok (mkFeatures (of_Z 5) 1 (of_Z 5) (of_Z 1)).
Proof.
  cbv zeta. repeat (split; [reflexivity|]).
  split; [discriminate|]. split; [discriminate|].
  split; [|reflexivity].
  intros [[H|[]] _]. discriminate H.
Qed.

Lemma accumulate_zero_iff (qs : list pyfloat) :
  Forall (fun q => fgt q (of_Z 0) = true) qs ->
  (feq (total_usd (accumulate qs zero_features)) (of_Z 0) = true <-> qs = []).
Proof.
  intro Hpos. split.
  - destruct qs as [|q qs]; [reflexivity|]. intro Hz. exfalso.
    destruct (accumulate_ok Hpos zero_features_ok) as [_ _ _ Hcases].
    destruct (accumulate_fields (q :: qs) zero_features) as (_ & Hn & _).
    cbn [List.length zero_features num_assets] in Hn.
    destruct Hcases as [(H0 & _) | (_ & Hgt & _)]; [lia|].
    rewrite (positive_not_zero _ Hgt) in Hz. discriminate.
  - intros ->. reflexivity.
Qed.

(** ** The normalisers *)

Lemma normalize_portfolio_size_unfold (usd_value : pyfloat) :
  log10_spec ->
  normalize_portfolio_size usd_value
  = if fle usd_value (of_Z 0) then of_Z 0
    else clamp (scale (log10 (py_max usd_value (of_Z 1)))).
Proof.
  intros [H100 H1e6 _]. unfold normalize_portfolio_size, clamp, scale.
  unfold MIN_PORTFOLIO, MAX_PORTFOLIO. rewrite H100, H1e6. reflexivity.
Qed.

Lemma scale_fin (a : Q) :
  scale (Fin a) = Fin (Qred (Qred (a - 2) / 4)).
Proof. reflexivity. Qed.

Lemma clamp_unit (x : pyfloat) :
  is_nan x = false ->
  exists q, clamp x = Fin q /\ (0 <= q <= 1)%Q.
Proof.
  unfold clamp, py_min, py_max, fgt, of_Z.
  destruct x as [a| | |]; cbn [flt is_nan]; intro H; try discriminate.
  - destruct (Qltb a (inject_Z 0)) eqn:E0; cbn [flt].
    + exists (inject_Z 0). split; [reflexivity|]. unfold inject_Z. lra.
    + destruct (Qltb (inject_Z 1) a) eqn:E1.
      * exists (inject_Z 1). split; [reflexivity|]. unfold inject_Z. lra.
      * exists a. split; [reflexivity|]. q_props. lra.
  - exists (inject_Z 1). split; [reflexivity|]. unfold inject_Z. lra.
  - exists (inject_Z 0). split; [reflexivity|]. unfold inject_Z. lra.
Qed.

Lemma clamp_monotone (x y : pyfloat) :
  fle x y = true -> fle (clamp x) (clamp y) = true.
Proof.
  unfold clamp, py_min, py_max, fgt, of_Z.
  destruct x as [a| | |], y as [b| | |]; cbn [fle flt]; intro H;
    try discriminate;
    repeat match goal with
    | |- context [Qltb ?u ?v] => destruct (Qltb u v) eqn:?; cbn [fle flt]
    end;
    try reflexivity; q_props; lra.
Qed.

Lemma scale_monotone (x y : pyfloat) :
  fle x y = true -> fle (scale x) (scale y) = true.
Proof.
  unfold scale.
  replace (fsub (of_Z 6) (of_Z 2)) with (Fin 4%Q) by reflexivity.
  unfold of_Z.
  destruct x as [a| | |], y as [b| | |]; cbn [fle fsub np_div]; intro H;
    try discriminate; try reflexivity.
  replace (Qeqb 4 0) with false by reflexivity. cbn [fle].
  q_props. lra.
Qed.

Lemma py_max_monotone (x y c : pyfloat) :
  is_nan c = false ->
  fle x y = true -> fle (py_max x c) (py_max y c) = true.
Proof.
  unfold py_max, fgt.
  destruct x as [a| | |], y as [b| | |], c as [d| | |]; cbn [fle flt is_nan];
    intros Hc H; try discriminate;
    repeat match goal with
    | |- context [Qltb ?u ?v] => destruct (Qltb u v) eqn:?; cbn [fle flt]
    end;
    try reflexivity; q_props; lra.
Qed.

(** Under [log10_spec] the logarithm of a float from 1 on is not NaN. *)
Lemma log10_defined (x : pyfloat) :
  log10_spec -> fle (of_Z 1) x = true -> is_nan (log10 x) = false.
Proof.
  intros [_ _ Hmono] H1.
  destruct (fle_not_nan _ _ H1) as [_ Hx].
  apply (fle_not_nan (log10 x) (log10 x)).
  apply Hmono; [exact H1|apply fle_refl, Hx].
Qed.

Lemma scale_defined (x : pyfloat) : is_nan x = false -> is_nan (scale x) = false.
Proof.
  intro H. apply (fle_not_nan (scale x) (scale x)), scale_monotone,
    fle_refl, H.
Qed.

Lemma normalize_portfolio_size_unit (usd_value : pyfloat) :
  log10_spec -> is_nan usd_value = false ->
  exists q, normalize_portfolio_size usd_value = Fin q /\ (0 <= q <= 1)%Q.
Proof.
  intros Hlog Hu. rewrite (normalize_portfolio_size_unfold _ Hlog).
  destruct (fle usd_value (of_Z 0)) eqn:E.
  - exists (inject_Z 0). split; [reflexivity|]. unfold inject_Z. lra.
  - apply clamp_unit, scale_defined, (log10_defined _ Hlog).
    apply py_max_ge_r; [exact Hu|reflexivity].
Qed.

(** C8: [normalize_portfolio_size] returns 0 on every value that is at most
    0, returns 1 on every value from 1,000,000 on, is non-decreasing, and
    takes its values in [0, 1]: the interpolated logarithm, clamped. *)
Theorem C8_normalize_portfolio_size (Hlog : log10_spec) :
  (forall u, fle u (of_Z 0) = true -> normalize_portfolio_size u = of_Z 0)
  /\ (forall u, fle (of_Z 1000000) u = true ->
                normalize_portfolio_size u = of_Z 1)
  /\ (forall x y, fle x y = true ->
                  fle (normalize_portfolio_size x)
                      (normalize_portfolio_size y) = true)
  /\ (forall u, fgt u (of_Z 0) = true ->
                normalize_portfolio_size u
                = clamp (scale (log10 (py_max u (of_Z 1))))
                /\ fle (of_Z 0) (normalize_portfolio_size u) = true
                /\ fle (normalize_portfolio_size u) (of_Z 1) = true).
Proof.
  split; [|split; [|split]].
  - intros u Hu. unfold normalize_portfolio_size. rewrite Hu. reflexivity.
  - intros u Hu. rewrite (normalize_portfolio_size_unfold _ Hlog).
    assert (H1 : fle (of_Z 1) u = true)
      by (eapply fle_trans; [|exact Hu]; reflexivity).
    assert (H0 : fle u (of_Z 0) = false).
    { apply flt_fle_false. eapply flt_fle_trans; [|exact H1]. reflexivity. }
    assert (Hmax : py_max u (of_Z 1) = u).
    { unfold py_max, fgt. rewrite (fle_flt_false _ _ H1). reflexivity. }
    rewrite H0, Hmax.
    pose proof (log10_monotone Hlog (of_Z 1000000) u eq_refl Hu) as H6.
    rewrite (log10_1000000 Hlog) in H6.
    destruct (log10 u) as [a| | |]; try discriminate; [|reflexivity].
    cbn [fle of_Z] in H6. rewrite scale_fin.
    unfold clamp, py_min, py_max, fgt, of_Z. cbn [flt].
    destruct (Qltb _ (inject_Z 0)) eqn:E0; [exfalso; q_props; lra|].
    cbn [flt].
    destruct (Qltb (inject_Z 1) _) eqn:E1; [reflexivity|].
    f_equal. change (inject_Z 1) with (Qred 1). apply Qred_complete.
    q_props. lra.
  - intros x y Hxy. rewrite !(normalize_portfolio_size_unfold _ Hlog).
    destruct (fle_not_nan _ _ Hxy) as [Hx Hy].
    destruct (fle x (of_Z 0)) eqn:Ex.
    + destruct (normalize_portfolio_size_unit _ Hlog Hy) as (q & Hq & Hq01).
      rewrite (normalize_portfolio_size_unfold _ Hlog) in Hq.
      rewrite Hq. cbn. q_props. lra.
    + assert (Ey : fle y (of_Z 0) = false).
      { apply flt_fle_false. eapply flt_fle_trans; [|exact Hxy].
        apply fle_false_flt; [exact Hx|reflexivity|exact Ex]. }
      rewrite Ey. apply clamp_monotone, scale_monotone.
      apply (log10_monotone Hlog).
      * apply py_max_ge_r; [exact Hx|reflexivity].
      * apply py_max_monotone; [reflexivity|exact Hxy].
  - intros u Hu. destruct (flt_not_nan _ _ Hu) as [_ Hnan].
    destruct (normalize_portfolio_size_unit _ Hlog Hnan) as (q & Hq & Hq01).
    rewrite Hq. rewrite (normalize_portfolio_size_unfold _ Hlog) in Hq.
    unfold fgt in Hu. rewrite (flt_fle_false _ _ Hu) in Hq.
    split; [symmetry; exact Hq|]. cbn. split; q_props; lra.
Qed.

Lemma normalize_diversification_fin (n : Z) :
  exists q, normalize_diversification n = Fin q.
Proof.
  unfold normalize_diversification.
  destruct (n <=? 1); [eexists; reflexivity|].
  destruct (n >=? 15); eexists; reflexivity.
Qed.

Lemma normalize_concentration_fin (c : pyfloat) :
  is_nan c = false -> exists q, normalize_concentration c = Fin q.
Proof.
  unfold normalize_concentration, fge.
  destruct c as [a| | |]; cbn [is_nan fle of_Z]; intro H; try discriminate.
  - destruct (Qleb (inject_Z 1) a); [eexists; reflexivity|].
    destruct (Qleb a 0.1%Q); eexists; reflexivity.
  - eexists; reflexivity.
  - eexists; reflexivity.
Qed.

(** ** The scorer *)

Lemma weighted_score_fin (f : features) (s d c : Q) :
  normalize_portfolio_size (total_usd f) = Fin s ->
  normalize_diversification (num_assets f) = Fin d ->
  normalize_concentration (portfolio_concentration f) = Fin c ->
  exists w, weighted_score f = Fin w.
Proof.
  intros Hs Hd Hc. unfold weighted_score. rewrite Hs, Hd, Hc.
  eexists; reflexivity.
Qed.

(** Once the weighted sum is a finite number, [round] succeeds and the score
    is the clamped value, or 800 for an empty portfolio. *)
Lemma compute_score_finite (f : features) (w : Q) :
  weighted_score f = Fin w ->
  exists s,
    compute_score f = Ok s /\ 0 <= s <= 1000
    /\ (feq (total_usd f) (of_Z 0) = true -> s = 800).
Proof.
  intro Hw. unfold compute_score. rewrite Hw. cbn [of_Z fsub fmul py_round bind].
  eexists. split; [reflexivity|]. split; [lia|].
  intros ->. reflexivity.
Qed.

Lemma feq_zero_fle (t : pyfloat) :
  feq t (of_Z 0) = true -> fle t (of_Z 0) = true.
Proof.
  destruct t; cbn; intro H; try discriminate. q_props. lra.
Qed.

(** The override on any record whose concentration is a number, in range or
    not: the weighted sum is then finite and [round] succeeds. *)
Lemma empty_record_scores_800 (f : features) :
  feq (total_usd f) (of_Z 0) = true ->
  is_nan (portfolio_concentration f) = false ->
  compute_score f = Ok 800.
Proof.
  intros Hz Hc.
  assert (Hs : normalize_portfolio_size (total_usd f) = Fin (inject_Z 0)).
  { unfold normalize_portfolio_size. rewrite (feq_zero_fle _ Hz). reflexivity. }
  destruct (normalize_diversification_fin (num_assets f)) as [d Hd].
  destruct (normalize_concentration_fin _ Hc) as [c Hcs].
  destruct (weighted_score_fin _ Hs Hd Hcs) as [w Hw].
  destruct (compute_score_finite _ Hw) as (s & Hscore & _ & H800).
  rewrite Hscore, (H800 Hz). reflexivity.
Qed.

(** C2: for every PortfolioFeatures record with [total_usd == 0],
    [compute_score] returns exactly 800, whatever the number of assets, the
    largest holding and the concentration of the record are.  No assumption
    on the logarithm is needed: it is not called on such a total. *)
Theorem C2_empty_portfolio_scores_800 (f : features) :
  PortfolioFeatures f ->
  feq (total_usd f) (of_Z 0) = true ->
  compute_score f = Ok 800.
Proof.
  intros Hpf Hz.
  destruct (pf_concentration Hpf) as [Hc0 _].
  destruct (fle_not_nan _ _ Hc0) as [_ Hc].
  apply empty_record_scores_800; [exact Hz|exact Hc].
Qed.

(** C3, as amended: for every record whose total and concentration are not
    NaN (infinite, negative and out-of-range values included, and any number
    of assets), [compute_score] returns an integer between 0 and 1000. *)
Theorem C3_score_in_range (Hlog : log10_spec) (f : features) :
  is_nan (total_usd f) = false ->
  is_nan (portfolio_concentration f) = false ->
  exists s, compute_score f = Ok s /\ 0 <= s <= 1000.
Proof.
  intros Ht Hc.
  destruct (normalize_portfolio_size_unit _ Hlog Ht) as (s & Hs & _).
  destruct (normalize_diversification_fin (num_assets f)) as [d Hd].
  destruct (normalize_concentration_fin _ Hc) as [c Hcs].
  destruct (weighted_score_fin _ Hs Hd Hcs) as [w Hw].
  destruct (compute_score_finite _ Hw) as (sc & Hscore & Hrange & _).
  exists sc. split; assumption.
Qed.

(** C9: on the payload with the two items of 500,000 the extractor returns a
    total of 1,000,000, 2 assets, a largest holding of 500,000 and a
    concentration of 0.5; the three sub-scores are 1, 1/14 and 0.5, the
    weighted sum is 0.525 and the score is 475. *)
Theorem C9_scenario_scores_475 :
  log10 (of_Z 100) = of_Z 2 ->
  log10 (of_Z 1000000) = of_Z 6 ->
  extract_features scenario_payload = Ok scenario_features
  /\ normalize_portfolio_size (total_usd scenario_features) = of_Z 1
  /\ normalize_diversification (num_assets scenario_features) = Fin (1 # 14)
  /\ normalize_concentration (portfolio_concentration scenario_features)
     = Fin (1 # 2)
  /\ weighted_score scenario_features = Fin (Qred 0.525)
  /\ compute_score scenario_features = Ok 475.
Proof.
  intros H100 H1e6.
  assert (Hs : normalize_portfolio_size (total_usd scenario_features) = of_Z 1).
  { unfold normalize_portfolio_size, MIN_PORTFOLIO, MAX_PORTFOLIO.
    cbn [scenario_features total_usd].
    replace (py_max (of_Z 1000000) (of_Z 1)) with (of_Z 1000000)
      by reflexivity.
    replace (fle (of_Z 1000000) (of_Z 0)) with false by reflexivity.
    rewrite H100, H1e6. reflexivity. }
  assert (Hw : weighted_score scenario_features = Fin (Qred 0.525)).
  { unfold weighted_score. rewrite Hs. reflexivity. }
  repeat split; try assumption; try reflexivity.
  unfold compute_score. rewrite Hw. reflexivity.
Qed.

(** Empty portfolios.  For every payload the total is positive exactly
    when the number of assets is, and exactly when the largest holding is; a
    record with [total_usd == 0] is scored 800 by the override; and for every
    payload whose balance items are all mappings, [total_usd == 0] holds
    exactly when no item has a positive parseable quote. *)
Lemma empty_portfolio_iff (payload : json) :
  exists f,
    extract_features payload = Ok f
    /\ (fgt (total_usd f) (of_Z 0) = true <-> 0 < num_assets f)
    /\ (0 < num_assets f <-> fgt (largest_holding_usd f) (of_Z 0) = true)
    /\ (feq (total_usd f) (of_Z 0) = true -> compute_score f = Ok 800)
    /\ (forallb is_dict (payload_items payload) = true ->
        (feq (total_usd f) (of_Z 0) = true
         <-> valid_quotes (payload_items payload) = [])).
Proof.
  eexists. split; [apply extract_features_shape|].
  pose proof (extracted_features_ok payload) as Hok.
  pose proof (extracted_quotes_positive payload) as Hpos.
  set (qs := extracted_quotes payload) in *.
  set (acc := accumulate qs zero_features) in *.
  destruct (with_concentration_fields acc) as (Ht & Hn & Hl).
  destruct (accumulate_fields qs zero_features) as (_ & _ & _ & Hc).
  fold acc in Hc.
  destruct Hok as [_ _ _ Hcases]. rewrite Ht, Hn, Hl in *.
  split; [|split; [|split]].
  - destruct Hcases as [(H0 & Hz & _) | (Hp & Hgt & _)].
    + rewrite H0, Hz. split; [discriminate|lia].
    + tauto.
  - destruct Hcases as [(H0 & _ & Hz) | (Hp & _ & Hgt)].
    + rewrite H0, Hz. split; [lia|discriminate].
    + tauto.
  - intro Hz. apply (accumulate_zero_iff Hpos) in Hz.
    subst acc. rewrite Hz. reflexivity.
  - intro Hd. rewrite <- (extracted_quotes_well_formed _ Hd). fold qs.
    apply accumulate_zero_iff, Hpos.
Qed.

(** C10: the override of [compute_score] does not fire only for payloads
    without a positive parseable quote.  [payload_with_string_item] holds an
    item quoted at 12.5 and the string "n/a" as second item; [item.get]
    raises on the string in the [try] block of the loop and again in the log
    line of its handler, the outer handler returns the all-zero record, and
    the override scores it 800.  With a mapping the same handler skips in
    place of the string, the total stays positive. *)
Theorem C10_override_fires_despite_valid_quote :
  let payload := payload_with_string_item in
  let held := add_holding zero_features (Fin 12.5) in
  let no_get := mkExn AttributeError "'str' object has no attribute 'get'" in
  valid_quotes (payload_items payload) = [Fin 12.5]
  /\ item_try (JStr "n/a") held = Raise no_get
  /\ item_handler (JStr "n/a") held no_get = Raise no_get
  /\ extract_try payload = Raise no_get
  /\ extract_features payload = Ok zero_features
  /\ feq (total_usd zero_features) (of_Z 0) = true
  /\ compute_score zero_features = Ok 800
  /\ extract_features
       (payload_of_items [JDict [("quote", JFloat (Fin 12.5))];
                          JDict [("quote", JInt (2 ^ 1024))]])
     = Ok (mkFeatures (Fin (25 # 2)) 1 (Fin 12.5) (of_Z 1)).
Proof.
  cbv zeta. repeat (split; [reflexivity|]). reflexivity.
Qed.

(* ================================================================== *)
(** * Further properties of the code *)
(* ================================================================== *)

(** ** The fetcher: attempts, result and pauses *)

(** An attempt returns a payload only on a reply that is not rate limited,
    carries no HTTP error, and whose body is a non-empty object that has
    [data] and no [errors]. *)
Lemma attempt_return (r : response) (n : nat) (d : json) :
  attempt r n = Return d ->
  exists status,
    r = Reply status (Some d)
    /\ status <> 429 /\ ~ (400 <= status < 600)
    /\ truthy d = true
    /\ py_in "errors" d = Ok false
    /\ py_in "data" d = Ok true.
Proof.
  unfold attempt, attempt_try.
  destruct r as [ | | | status body]; cbn [requests_get bind];
    try discriminate.
  destruct (Z.eqb_spec status 429) as [->|Hs]; [discriminate|].
  unfold raise_for_status.
  destruct ((400 <=? status) && (status <? 600)) eqn:Eh;
    cbn [bind]; [discriminate|].
  destruct body as [data|]; cbn [response_json bind]; [|discriminate].
  destruct (truthy data) eqn:Et; cbn [negb bind].
  - destruct (py_in "errors" data) as [[|]|e] eqn:Ee; cbn [bind].
    + destruct (py_get data "errors" (JStr "No data")); discriminate.
    + destruct (py_in "data" data) as [[|]|e] eqn:Ed; cbn [bind];
        try discriminate.
      intro H. inversion H; subst. exists status.
      repeat split; try assumption.
      intros [H1 H2]. apply andb_false_iff in Eh.
      destruct Eh as [Eh|Eh]; [apply Z.leb_gt in Eh|apply Z.ltb_ge in Eh]; lia.
    + discriminate.
  - destruct (py_get data "errors" (JStr "No data")); discriminate.
Qed.

(** The pause of one attempt is at most [10 * (n + 1)] seconds. *)
Lemma backoff_bound (n retries : nat) :
  0 <= total_sleep (backoff n retries) <= 10 * (Z.of_nat n + 1).
Proof.
  unfold backoff. destruct (Z.of_nat n <? Z.of_nat retries - 1);
    cbn [total_sleep]; [|lia].
  assert (Hpos : 0 < 2 ^ Z.of_nat n) by (apply Z.pow_pos_nonneg; lia).
  destruct n as [|[|n]].
  - change (2 ^ Z.of_nat 0) with 1 in *. lia.
  - change (2 ^ Z.of_nat 1) with 2 in *. lia.
  - lia.
Qed.

Lemma attempt_continue_bound (r : response) (n : nat) (effects : list event) :
  attempt r n = Continue effects ->
  requests effects = []
  /\ 0 <= total_sleep effects <= 10 * (Z.of_nat n + 1).
Proof.
  unfold attempt, attempt_try.
  destruct r as [ | | | status body]; cbn [requests_get bind];
    try discriminate.
  destruct (status =? 429).
  - intro H.
    assert (effects = [Sleep (10 * (Z.of_nat n + 1))]) by congruence.
    subst effects. cbn [requests total_sleep]. split; [reflexivity|lia].
  - destruct (raise_for_status status); cbn [bind]; [|discriminate].
    destruct (response_json body) as [data|]; cbn [bind]; [|discriminate].
    destruct (if negb (truthy data) then Ok true else py_in "errors" data)
      as [[|]|]; cbn [bind]; [| |discriminate].
    + destruct (py_get data "errors" (JStr "No data")); cbn [bind];
        [|discriminate].
      intro H. assert (effects = []) by congruence.
      subst effects. cbn [requests total_sleep]. split; [reflexivity|lia].
    + destruct (py_in "data" data) as [[|]|]; discriminate.
Qed.

Lemma requests_app (t1 t2 : list event) :
  requests (t1 ++ t2) = requests t1 ++ requests t2.
Proof.
  induction t1 as [|[n|s] t1 IH]; cbn; [reflexivity| |exact IH].
  rewrite IH. reflexivity.
Qed.

Lemma total_sleep_app (t1 t2 : list event) :
  total_sleep (t1 ++ t2) = total_sleep t1 + total_sleep t2.
Proof.
  induction t1 as [|[n|s] t1 IH]; cbn [app total_sleep]; lia.
Qed.

Lemma requests_backoff (n retries : nat) : requests (backoff n retries) = [].
Proof.
  unfold backoff. destruct (Z.of_nat n <? Z.of_nat retries - 1); reflexivity.
Qed.

(** One pass of the loop: it returns, or it goes on after effects that send
    no request and sleep at most [10 * (n + 1)] seconds. *)
Lemma fetch_attempts_step (network : nat -> response) (retries n : nat)
  (rest : list nat) :
  (exists d,
      attempt (network n) n = Return d
      /\ fetch_attempts network retries (n :: rest) = (Some d, [Request n]))
  \/ (exists effects,
         (forall d, attempt (network n) n <> Return d)
         /\ requests effects = []
         /\ 0 <= total_sleep effects <= 10 * (Z.of_nat n + 1)
         /\ fetch_attempts network retries (n :: rest)
            = (fst (fetch_attempts network retries rest),
               Request n :: effects
               ++ snd (fetch_attempts network retries rest))).
Proof.
  cbn [fetch_attempts].
  destruct (attempt (network n) n) as [data|effects|] eqn:Ea.
  - left. exists data. split; reflexivity.
  - right. exists effects.
    destruct (attempt_continue_bound _ _ Ea) as [Hr Hs].
    destruct (fetch_attempts network retries rest).
    repeat split; try assumption; try lia. discriminate.
  - right. exists (backoff n retries).
    pose proof (backoff_bound n retries) as Hs.
    destruct (fetch_attempts network retries rest).
    repeat split; try lia; [discriminate|apply requests_backoff].
Qed.

(** The loop over the attempts [a], [a + 1], ..., [a + len - 1]: the
    requests sent are the first [k] of them; without a result all were sent,
    and a result is what the last one returned. *)
Lemma fetch_attempts_requests (network : nat -> response) (retries : nat)
  (len : nat) :
  forall a,
    let run := fetch_attempts network retries (seq a len) in
    exists k,
      (k <= len)%nat
      /\ requests (snd run) = seq a k
      /\ (forall m d, (a <= m)%nat -> (m + 1 < a + k)%nat ->
                      attempt (network m) m <> Return d)
      /\ (fst run = None -> k = len)
      /\ (forall d, fst run = Some d ->
                    exists m, (a + k = m + 1)%nat
                              /\ attempt (network m) m = Return d).
Proof.
  induction len as [|len IH]; intro a; cbn zeta.
  - exists 0%nat. cbn. repeat split; try (intros; lia); discriminate.
  - cbn [seq].
    destruct (fetch_attempts_step network retries a (seq (S a) len))
      as [(d & Ea & ->) | (effects & Hno & Hreq & _ & ->)].
    + exists 1%nat. cbn [fst snd requests seq].
      split; [lia|]. split; [reflexivity|]. split; [intros; lia|].
      split; [discriminate|].
      intros d' H. inversion H; subst. exists a. split; [lia|exact Ea].
    + destruct (IH (S a)) as (k & Hk & Hrs & Hbefore & Hnone & Hsome).
      exists (S k). cbn [fst snd requests seq].
      rewrite requests_app, Hreq, Hrs. cbn [app].
      split; [lia|]. split; [reflexivity|]. split; [|split].
      * intros m d Ha Hm.
        destruct (Nat.eq_dec m a) as [->|Hne]; [apply Hno|].
        apply Hbefore; lia.
      * intro H. rewrite (Hnone H). reflexivity.
      * intros d H. destruct (Hsome d H) as (m & Hm & Hret).
        exists m. split; [lia|exact Hret].
Qed.

Lemma fetch_attempts_sleep (network : nat -> response) (retries : nat)
  (len : nat) :
  forall a,
    0 <= total_sleep (snd (fetch_attempts network retries (seq a len)))
    <= 5 * Z.of_nat len * (2 * Z.of_nat a + Z.of_nat len + 1).
Proof.
  induction len as [|len IH]; intro a.
  - cbn. lia.
  - cbn [seq].
    destruct (fetch_attempts_step network retries a (seq (S a) len))
      as [(d & _ & ->) | (effects & _ & _ & Hs & ->)].
    + cbn [snd total_sleep]. nia.
    + cbn [snd total_sleep]. rewrite total_sleep_app.
      specialize (IH (S a)). nia.
Qed.

Lemma fetch_attempts_none (network : nat -> response) (retries : nat)
  (attempts : list nat) :
  fst (fetch_attempts network retries attempts) = None ->
  forall n d, In n attempts -> attempt (network n) n <> Return d.
Proof.
  induction attempts as [|n0 rest IH]; intros Hnone n d Hin; [destruct Hin|].
  destruct (fetch_attempts_step network retries n0 rest)
    as [(d0 & _ & Heq) | (effects & Hno & _ & _ & Heq)];
    rewrite Heq in Hnone; cbn [fst] in Hnone; [discriminate|].
  destruct Hin as [<-|Hin]; [apply Hno|apply IH; assumption].
Qed.

Lemma fetch_result_returned (network : nat -> response)
  (retries : nat) (d : json) :
  fst (fetch_wallet_data network retries) = Some d ->
  exists m, attempt (network m) m = Return d.
Proof.
  intro H. unfold fetch_wallet_data in H.
  destruct (fetch_attempts_requests network retries retries 0%nat)
    as (k & _ & _ & _ & _ & Hsome).
  destruct (Hsome d H) as (m & _ & Hret). exists m. exact Hret.
Qed.

(** X1: a fetch sends the requests 0, 1, ..., k-1 for some [k <= retries],
    one after the other.  It stops at the first attempt that returns a
    payload, and that payload is its result; it returns [None] exactly when
    none of the [retries] attempts returns one, after sending them all. *)
Theorem fetch_stops_at_first_success (network : nat -> response)
  (retries : nat) :
  let run := fetch_wallet_data network retries in
  exists k,
    (k <= retries)%nat
    /\ requests (snd run) = seq 0 k
    /\ (forall m d, (m + 1 < k)%nat -> attempt (network m) m <> Return d)
    /\ match fst run with
       | None =>
           k = retries
           /\ forall m d, (m < retries)%nat ->
                          attempt (network m) m <> Return d
       | Some d =>
           exists m, k = S m /\ attempt (network m) m = Return d
       end.
Proof.
  cbn zeta. unfold fetch_wallet_data.
  destruct (fetch_attempts_requests network retries retries 0%nat)
    as (k & Hk & Hreq & Hbefore & Hnone & Hsome).
  exists k. split; [exact Hk|]. split; [exact Hreq|]. split.
  - intros m d Hm. apply Hbefore; lia.
  - destruct (fst (fetch_attempts network retries (seq 0 retries)))
      as [d|] eqn:E.
    + destruct (Hsome d eq_refl) as (m & Hm & Hret).
      exists m. split; [lia|exact Hret].
    + split; [apply Hnone; reflexivity|].
      intros m d Hm. apply (fetch_attempts_none _ _ _ E).
      apply in_seq. lia.
Qed.

(** X2: whatever the network does, a fetch with [retries] attempts sleeps at
    most [5 * retries * (retries + 1)] seconds in total: 60 seconds for the
    3 attempts [main] allows. *)
Theorem fetch_sleep_bounded (network : nat -> response) (retries : nat) :
  0 <= total_sleep (snd (fetch_wallet_data network retries))
  <= 5 * Z.of_nat retries * (Z.of_nat retries + 1).
Proof.
  unfold fetch_wallet_data.
  pose proof (fetch_attempts_sleep network retries retries 0%nat) as H.
  cbn [Z.of_nat] in H. lia.
Qed.

(** X3: the bound of X2 is reached: when every request is answered with
    HTTP 429 the fetch pauses after each attempt, the last one included, for
    10, 20, ... seconds, and returns [None]. *)
Theorem fetch_rate_limited (network : nat -> response) (retries : nat) :
  (forall n, exists body, network n = Reply 429 body) ->
  fetch_wallet_data network retries
  = (None,
     flat_map (fun n => [Request n; Sleep (10 * (Z.of_nat n + 1))])
              (seq 0 retries))
  /\ total_sleep (snd (fetch_wallet_data network retries))
     = 5 * Z.of_nat retries * (Z.of_nat retries + 1).
Proof.
  intro H429. unfold fetch_wallet_data.
  assert (Hgen : forall len a,
    fetch_attempts network retries (seq a len)
    = (None, flat_map (fun n => [Request n; Sleep (10 * (Z.of_nat n + 1))])
                      (seq a len))
    /\ total_sleep (snd (fetch_attempts network retries (seq a len)))
       = 5 * Z.of_nat len * (2 * Z.of_nat a + Z.of_nat len + 1)).
  { induction len as [|len IH]; intro a; [cbn; split; [reflexivity|lia]|].
    destruct (IH (S a)) as [Hrun Hsl]. cbn [seq fetch_attempts flat_map].
    destruct (H429 a) as [body ->].
    unfold attempt, attempt_try. cbn [requests_get bind Z.eqb Pos.eqb].
    rewrite Hrun in *. cbn [snd app total_sleep] in *.
    split; [reflexivity|]. rewrite Hsl. nia. }
  destruct (Hgen retries 0%nat) as [Hrun Hsl].
  split; [exact Hrun|]. rewrite Hsl. cbn [Z.of_nat]. lia.
Qed.

(** X4: a payload the fetcher returns is truthy, has [data] in it and has
    no [errors] in it: it is a mapping with a [data] key and without an
    [errors] key, or a list or string that contains "data". *)
Theorem fetch_result_usable (network : nat -> response) (retries : nat)
  (d : json) :
  fst (fetch_wallet_data network retries) = Some d ->
  truthy d = true
  /\ py_in "data" d = Ok true
  /\ py_in "errors" d = Ok false.
Proof.
  intro H.
  pose proof (@fetch_result_returned network retries) as Haux.
  destruct (Haux d H) as (m & Hret).
  destruct (attempt_return _ _ Hret) as (status & _ & _ & _ & Ht & He & Hd).
  repeat split; assumption.
Qed.


(** ** The normalisers and the scorer, as functions of the features *)

Lemma ratio_le (a b : Z) :
  a <= b -> (inject_Z a / inject_Z 14 <= inject_Z b / inject_Z 14)%Q.
Proof.
  intro H. unfold Qle, Qdiv, Qmult, Qinv, inject_Z. cbn [Qnum Qden]. lia.
Qed.

Lemma ratio_lt (a b : Z) :
  a < b -> (inject_Z a / inject_Z 14 < inject_Z b / inject_Z 14)%Q.
Proof.
  intro H. unfold Qlt, Qdiv, Qmult, Qinv, inject_Z. cbn [Qnum Qden]. lia.
Qed.

Lemma ratio_unit (a : Z) :
  0 <= a <= 14 ->
  (inject_Z 0 <= inject_Z a / inject_Z 14 <= inject_Z 1)%Q.
Proof.
  intro H. unfold Qle, Qdiv, Qmult, Qinv, inject_Z. cbn [Qnum Qden]. lia.
Qed.

(** X5: the diversification score lies in [0, 1], never decreases with the
    number of assets, and strictly increases with it between 1 and 15. *)
Theorem diversification_monotone (n m : Z) :
  n <= m ->
  fle (normalize_diversification n) (normalize_diversification m) = true
  /\ fle (of_Z 0) (normalize_diversification n) = true
  /\ fle (normalize_diversification n) (of_Z 1) = true
  /\ (1 <= n -> n < m -> m <= 15 ->
      flt (normalize_diversification n) (normalize_diversification m) = true).
Proof.
  intro Hnm. unfold normalize_diversification, of_Z.
  rewrite !Z.geb_leb.
  assert (Hn : 1 <= n <= 15 ->
               (inject_Z 0 <= inject_Z (n - 1) / inject_Z 14 <= inject_Z 1)%Q)
    by (intro; apply ratio_unit; lia).
  assert (Hm : 1 <= m <= 15 ->
               (inject_Z 0 <= inject_Z (m - 1) / inject_Z 14 <= inject_Z 1)%Q)
    by (intro; apply ratio_unit; lia).
  assert (Hle : (inject_Z (n - 1) / inject_Z 14
                 <= inject_Z (m - 1) / inject_Z 14)%Q)
    by (apply ratio_le; lia).
  assert (Hlt : n < m -> (inject_Z (n - 1) / inject_Z 14
                          < inject_Z (m - 1) / inject_Z 14)%Q)
    by (intro; apply ratio_lt; lia).
  destruct (Z.leb_spec n 1), (Z.leb_spec m 1), (Z.leb_spec 15 n),
    (Z.leb_spec 15 m); try lia; cbn [fle flt];
    (split; [|split; [|split]]); try reflexivity; try (intros; lia);
    try (intros H1n Hnm' Hm15);
    try (apply Qleb_le; rewrite ?Qred_correct);
    try (apply Qltb_lt; rewrite ?Qred_correct);
    try (apply Hn; lia); try (apply Hm; lia); try exact Hle;
    try (apply Hlt; lia).
  - unfold Qlt, Qdiv, Qmult, Qinv, inject_Z. cbn [Qnum Qden]. lia.
  - unfold Qlt, Qdiv, Qmult, Qinv, inject_Z. cbn [Qnum Qden]. lia.
Qed.


(** X6: the concentration score lies in [0, 1] and never increases with the
    concentration; it is 1 up to a concentration of 0.1 and at most 0.9
    beyond, so no value strictly between 0.9 and 1 is ever returned. *)
Theorem concentration_score_antitone (c1 c2 : pyfloat) :
  fle c1 c2 = true ->
  fle (normalize_concentration c2) (normalize_concentration c1) = true
  /\ fle (of_Z 0) (normalize_concentration c1) = true
  /\ fle (normalize_concentration c1) (of_Z 1) = true
  /\ (normalize_concentration c1 = of_Z 1
      \/ fle (normalize_concentration c1) (Fin 0.9%Q) = true).
Proof.
  unfold normalize_concentration, fge, of_Z.
  destruct c1 as [a| | |], c2 as [b| | |]; cbn [fle fsub]; intro H;
    try discriminate;
    repeat match goal with
    | |- context [Qleb ?u ?v] => destruct (Qleb u v) eqn:?; cbn [fle fsub]
    end;
    (split; [|split; [|split]]);
    try reflexivity; try (left; reflexivity); try (right; reflexivity);
    try right; q_props; lra.
Qed.

Lemma Qcompare_cases (a b : Q) :
  match (a ?= b)%Q with
  | Eq => (a == b)%Q
  | Lt => (a < b)%Q
  | Gt => (b < a)%Q
  end.
Proof.
  destruct (a ?= b)%Q eqn:E;
    [apply Qeq_alt|apply Qlt_alt|apply Qgt_alt]; exact E.
Qed.

(** [round] never decreases. *)
Lemma round_half_even_monotone (p q : Q) :
  (p <= q)%Q -> round_half_even p <= round_half_even q.
Proof.
  intro Hpq. unfold round_half_even.
  pose proof (Qfloor_resp_le _ _ Hpq) as Hfl.
  pose proof (Qcompare_cases (p - inject_Z (Qfloor p)) (1 # 2)) as Cp.
  pose proof (Qcompare_cases (q - inject_Z (Qfloor q)) (1 # 2)) as Cq.
  destruct (Z.eq_dec (Qfloor p) (Qfloor q)) as [E|E].
  - rewrite <- E in *. set (fp := inject_Z (Qfloor p)) in *.
    destruct (p - fp ?= 1 # 2)%Q; destruct (q - fp ?= 1 # 2)%Q;
      try (destruct (Z.even (Qfloor p))); try lia; exfalso; lra.
  - assert (Qfloor p + 1 <= Qfloor q) by lia.
    destruct (p - inject_Z (Qfloor p) ?= 1 # 2)%Q;
      destruct (q - inject_Z (Qfloor q) ?= 1 # 2)%Q;
      repeat match goal with
      | |- context [Z.even ?z] => destruct (Z.even z)
      end; lia.
Qed.

Lemma normalize_portfolio_size_monotone (x y : pyfloat) :
  log10_spec ->
  fle x y = true ->
  fle (normalize_portfolio_size x) (normalize_portfolio_size y) = true.
Proof.
  intros Hlog Hxy. rewrite !(normalize_portfolio_size_unfold _ Hlog).
  destruct (fle_not_nan _ _ Hxy) as [Hx Hy].
  destruct (fle x (of_Z 0)) eqn:Ex.
  - destruct (normalize_portfolio_size_unit _ Hlog Hy) as (q & Hq & Hq01).
    rewrite (normalize_portfolio_size_unfold _ Hlog) in Hq.
    rewrite Hq. cbn. q_props. lra.
  - assert (Ey : fle y (of_Z 0) = false).
    { apply flt_fle_false. eapply flt_fle_trans; [|exact Hxy].
      apply fle_false_flt; [exact Hx|reflexivity|exact Ex]. }
    rewrite Ey. apply clamp_monotone, scale_monotone.
    apply (log10_monotone Hlog).
    + apply py_max_ge_r; [exact Hx|reflexivity].
    + apply py_max_monotone; [reflexivity|exact Hxy].
Qed.

Lemma diversification_parts (n m : Z) :
  n <= m ->
  exists p q,
    normalize_diversification n = Fin p
    /\ normalize_diversification m = Fin q /\ (p <= q)%Q.
Proof.
  intro H.
  destruct (normalize_diversification_fin n) as [p Hp].
  destruct (normalize_diversification_fin m) as [q Hq].
  exists p, q. split; [exact Hp|]. split; [exact Hq|].
  unfold normalize_diversification in Hp, Hq. rewrite !Z.geb_leb in *.
  destruct (Z.leb_spec n 1), (Z.leb_spec m 1), (Z.leb_spec 15 n),
    (Z.leb_spec 15 m); try lia;
    injection Hp as <-; injection Hq as <-; rewrite ?Qred_correct;
    try apply ratio_le; try apply ratio_unit; try lia;
    unfold Qle, inject_Z; cbn [Qnum Qden]; lia.
Qed.

Lemma concentration_parts (c1 c2 : pyfloat) :
  fle c1 c2 = true ->
  exists p q,
    normalize_concentration c1 = Fin p
    /\ normalize_concentration c2 = Fin q /\ (q <= p)%Q.
Proof.
  intro H. destruct (fle_not_nan _ _ H) as [H1 H2].
  destruct (normalize_concentration_fin _ H1) as [p Hp].
  destruct (normalize_concentration_fin _ H2) as [q Hq].
  exists p, q. split; [exact Hp|]. split; [exact Hq|].
  revert Hp Hq H. unfold normalize_concentration, fge, of_Z.
  destruct c1 as [a| | |], c2 as [b| | |]; cbn [fle fsub];
    try discriminate;
    repeat match goal with
    | |- context [Qleb ?u ?v] => destruct (Qleb u v) eqn:?; cbn [fle fsub]
    end;
    intros Hp Hq H; injection Hp as <-; injection Hq as <-;
    try discriminate; q_props; lra.
Qed.

(** The score as a function of the three sub-scores, once they are finite. *)
Lemma compute_score_of_parts (f : features) (s d c : Q) :
  normalize_portfolio_size (total_usd f) = Fin s ->
  normalize_diversification (num_assets f) = Fin d ->
  normalize_concentration (portfolio_concentration f) = Fin c ->
  feq (total_usd f) (of_Z 0) = false ->
  exists w,
    (w == (1 - (s * 0.35 + d * 0.35 + c * 0.30)) * 1000)%Q
    /\ compute_score f = Ok (Z.max 0 (Z.min 1000 (round_half_even w))).
Proof.
  intros Hs Hd Hc Hz. unfold compute_score, weighted_score.
  rewrite Hs, Hd, Hc, Hz. cbn [fmul fadd fsub of_Z py_round bind].
  eexists. split; [|reflexivity].
  rewrite !Qred_correct. unfold inject_Z. ring.
Qed.

(** X7: among portfolios with a positive total, a larger total, more assets
    and a lower concentration never raise the score. *)
Theorem compute_score_monotone (Hlog : log10_spec) (f g : features) :
  fgt (total_usd f) (of_Z 0) = true ->
  fle (total_usd f) (total_usd g) = true ->
  num_assets f <= num_assets g ->
  fle (portfolio_concentration g) (portfolio_concentration f) = true ->
  exists s t,
    compute_score f = Ok s /\ compute_score g = Ok t /\ t <= s.
Proof.
  intros Hpos Htot Hn Hconc.
  destruct (fle_not_nan _ _ Htot) as [Htf Htg].
  destruct (fle_not_nan _ _ Hconc) as [Hcg Hcf].
  pose proof (normalize_portfolio_size_monotone _ _ Hlog Htot) as Hsize.
  destruct (diversification_parts Hn) as (df & dg & Hdf & Hdg & Hdiv).
  destruct (concentration_parts _ _ Hconc) as (cg & cf & Hcgs & Hcfs & Hcs).
  destruct (normalize_portfolio_size_unit _ Hlog Htf) as (sf & Hsf & _).
  destruct (normalize_portfolio_size_unit _ Hlog Htg) as (sg & Hsg & _).
  rewrite Hsf, Hsg in Hsize. cbn [fle] in Hsize.
  assert (Hzf : feq (total_usd f) (of_Z 0) = false)
    by (apply positive_not_zero, Hpos).
  assert (Hzg : feq (total_usd g) (of_Z 0) = false).
  { apply positive_not_zero. unfold fgt in *.
    eapply flt_fle_trans; [exact Hpos|exact Htot]. }
  destruct (compute_score_of_parts _ Hsf Hdf Hcfs Hzf) as (wf & Hwf & ->).
  destruct (compute_score_of_parts _ Hsg Hdg Hcgs Hzg) as (wg & Hwg & ->).
  do 2 eexists. split; [reflexivity|]. split; [reflexivity|].
  assert (round_half_even wg <= round_half_even wf); [|lia].
  apply round_half_even_monotone. rewrite Hwf, Hwg. q_props. lra.
Qed.


Lemma normalize_portfolio_size_top (u : pyfloat) :
  log10_spec -> fle (of_Z 1000000) u = true ->
  normalize_portfolio_size u = of_Z 1.
Proof.
  intros Hlog Hu. rewrite (normalize_portfolio_size_unfold _ Hlog).
  assert (H1 : fle (of_Z 1) u = true)
    by (eapply fle_trans; [|exact Hu]; reflexivity).
  assert (H0 : fle u (of_Z 0) = false).
  { apply flt_fle_false. eapply flt_fle_trans; [|exact H1]. reflexivity. }
  assert (Hmax : py_max u (of_Z 1) = u).
  { unfold py_max, fgt. rewrite (fle_flt_false _ _ H1). reflexivity. }
  rewrite H0, Hmax.
  pose proof (log10_monotone Hlog (of_Z 1000000) u eq_refl Hu) as H6.
  rewrite (log10_1000000 Hlog) in H6.
  destruct (log10 u) as [a| | |]; try discriminate; [|reflexivity].
  cbn [fle of_Z] in H6. rewrite scale_fin.
  unfold clamp, py_min, py_max, fgt, of_Z. cbn [flt].
  destruct (Qltb _ (inject_Z 0)) eqn:E0; [exfalso; q_props; lra|].
  cbn [flt].
  destruct (Qltb (inject_Z 1) _) eqn:E1; [reflexivity|].
  f_equal. change (inject_Z 1) with (Qred 1). apply Qred_complete.
  q_props. lra.
Qed.

Lemma normalize_portfolio_size_bottom (u : pyfloat) :
  log10_spec -> fle u (of_Z 100) = true ->
  normalize_portfolio_size u = of_Z 0.
Proof.
  intros Hlog Hu. rewrite (normalize_portfolio_size_unfold _ Hlog).
  destruct (fle u (of_Z 0)) eqn:E0; [reflexivity|].
  destruct (fle_not_nan _ _ Hu) as [Hnan _].
  assert (H1 : fle (of_Z 1) (py_max u (of_Z 1)) = true)
    by (apply py_max_ge_r; [exact Hnan|reflexivity]).
  assert (H100 : fle (py_max u (of_Z 1)) (of_Z 100) = true).
  { destruct (py_max_cases u (of_Z 1)) as [-> | ->];
      [exact Hu|reflexivity]. }
  pose proof (log10_monotone Hlog _ _ H1 H100) as H2.
  rewrite (log10_100 Hlog) in H2.
  destruct (log10 (py_max u (of_Z 1))) as [a| | |]; try discriminate;
    [|reflexivity].
  cbn [fle of_Z] in H2. rewrite scale_fin.
  unfold clamp, py_min, py_max, fgt, of_Z. cbn [flt].
  destruct (Qltb _ (inject_Z 0)) eqn:E; [reflexivity|].
  cbn [flt].
  destruct (Qltb (inject_Z 1) _) eqn:E1; [exfalso; q_props; lra|].
  f_equal. change (inject_Z 0) with (Qred 0). apply Qred_complete.
  q_props. lra.
Qed.

(** X8: the two ends of the scale.  A portfolio of at least 1,000,000 in at
    least 15 assets, none above a tenth of the total, scores 0; a portfolio
    of a positive total up to 100 in at most one asset at full concentration
    scores 1000, above the 800 of an empty portfolio. *)
Theorem compute_score_extremes (Hlog : log10_spec) (f : features) :
  (fle (of_Z 1000000) (total_usd f) = true ->
   15 <= num_assets f ->
   fle (portfolio_concentration f) (Fin 0.1%Q) = true ->
   compute_score f = Ok 0)
  /\ (fgt (total_usd f) (of_Z 0) = true ->
      fle (total_usd f) (of_Z 100) = true ->
      num_assets f <= 1 ->
      fle (of_Z 1) (portfolio_concentration f) = true ->
      compute_score f = Ok 1000).
Proof.
  split.
  - intros Ht Hn Hc. unfold compute_score, weighted_score.
    rewrite (normalize_portfolio_size_top _ Hlog Ht).
    assert (Hz : feq (total_usd f) (of_Z 0) = false).
    { apply positive_not_zero. unfold fgt.
      eapply flt_fle_trans; [|exact Ht]. reflexivity. }
    assert (Hd : normalize_diversification (num_assets f) = of_Z 1).
    { unfold normalize_diversification.
      destruct (Z.leb_spec (num_assets f) 1); [lia|].
      rewrite Z.geb_leb. destruct (Z.leb_spec 15 (num_assets f)); [|lia].
      reflexivity. }
    assert (Hcs : normalize_concentration (portfolio_concentration f)
                  = of_Z 1).
    { unfold normalize_concentration, fge. rewrite Hc.
      destruct (fle (of_Z 1) (portfolio_concentration f)) eqn:E;
        [|reflexivity].
      exfalso. pose proof (fle_trans _ _ _ E Hc) as H. discriminate H. }
    rewrite Hz, Hd, Hcs. reflexivity.
  - intros Hpos Ht Hn Hc. unfold compute_score, weighted_score.
    rewrite (normalize_portfolio_size_bottom _ Hlog Ht).
    rewrite (positive_not_zero _ Hpos).
    assert (Hd : normalize_diversification (num_assets f) = of_Z 0).
    { unfold normalize_diversification.
      destruct (Z.leb_spec (num_assets f) 1); [reflexivity|lia]. }
    assert (Hcs : normalize_concentration (portfolio_concentration f)
                  = of_Z 0).
    { unfold normalize_concentration, fge. rewrite Hc. reflexivity. }
    rewrite Hd, Hcs. reflexivity.
Qed.

(** The clamp of any float is a number of [0, 1], or NaN. *)
Lemma clamp_cases (x : pyfloat) :
  (exists q, clamp x = Fin q /\ (0 <= q <= 1)%Q) \/ clamp x = NaN.
Proof.
  destruct (is_nan x) eqn:E.
  - right. destruct x; try discriminate. reflexivity.
  - left. apply clamp_unit, E.
Qed.

Lemma normalize_concentration_cases (c : pyfloat) :
  (exists q, normalize_concentration c = Fin q)
  \/ (c = NaN /\ normalize_concentration c = NaN).
Proof.
  destruct (is_nan c) eqn:E.
  - right. destruct c; try discriminate. split; reflexivity.
  - left. apply normalize_concentration_fin, E.
Qed.

Lemma normalize_portfolio_size_cases (u : pyfloat) :
  (exists q, normalize_portfolio_size u = Fin q)
  \/ normalize_portfolio_size u = NaN.
Proof.
  unfold normalize_portfolio_size.
  destruct (fle u (of_Z 0)); [left; eexists; reflexivity|].
  cbv zeta.
  destruct (clamp_cases (np_div (fsub (log10 (py_max u (of_Z 1)))
                                      (log10 MIN_PORTFOLIO))
                                (fsub (log10 MAX_PORTFOLIO)
                                      (log10 MIN_PORTFOLIO))))
    as [(q & Hq & _) | Hnan].
  - left. exists q. exact Hq.
  - right. exact Hnan.
Qed.

(** The weighted sum is a number or NaN, never an infinity. *)
Lemma weighted_score_cases (f : features) :
  (exists w, weighted_score f = Fin w) \/ weighted_score f = NaN.
Proof.
  destruct (normalize_portfolio_size_cases (total_usd f)) as [[s Hs] | Hs];
    destruct (normalize_diversification_fin (num_assets f)) as [d Hd];
    destruct (normalize_concentration_cases (portfolio_concentration f))
      as [[c Hc] | [_ Hc]].
  - left. apply (weighted_score_fin _ Hs Hd Hc).
  - right. unfold weighted_score. rewrite Hs, Hd, Hc. reflexivity.
  - right. unfold weighted_score. rewrite Hs, Hd. reflexivity.
  - right. unfold weighted_score. rewrite Hs, Hd. reflexivity.
Qed.

(** X9: whatever the features are and whatever the logarithm returns,
    [compute_score] returns an integer between 0 and 1000 or raises the
    ValueError of [round] on NaN; it raises nothing else, the OverflowError
    of [round] on an infinity included. *)
Theorem compute_score_outcomes (f : features) :
  (exists s, compute_score f = Ok s /\ 0 <= s <= 1000)
  \/ (is_nan (weighted_score f) = true
      /\ compute_score f
         = Raise (mkExn ValueError "cannot convert float NaN to integer")).
Proof.
  destruct (weighted_score_cases f) as [[w Hw] | Hw].
  - left. destruct (compute_score_finite _ Hw) as (sc & Hscore & Hrange & _).
    exists sc. split; assumption.
  - right. unfold compute_score. rewrite Hw. split; reflexivity.
Qed.

(** ** The extractor: concentration, quotes and order *)

Lemma fle_antisym (x y : pyfloat) :
  fle x y = true -> fle y x = true -> feq x y = true.
Proof.
  destruct x as [a| | |], y as [b| | |]; cbn [fle feq]; intros H1 H2;
    try discriminate; try reflexivity.
  q_props. lra.
Qed.

Lemma fle_PInf (x : pyfloat) : fle PInf x = true -> x = PInf.
Proof. destruct x; cbn; intro H; try discriminate. reflexivity. Qed.

(** The concentration of a record the loop has built: NaN when the largest
    holding is infinite, a number of [0, 1] otherwise. *)
Lemma with_concentration_value (f : features) :
  holdings_ok f -> portfolio_concentration f = of_Z 0 ->
  (largest_holding_usd f = PInf
   /\ portfolio_concentration (with_concentration f) = NaN)
  \/ (largest_holding_usd f <> PInf
      /\ exists c, portfolio_concentration (with_concentration f) = Fin c
                   /\ (0 <= c <= 1)%Q).
Proof.
  intros [H0 Hle _ Hcases] Hc. unfold with_concentration.
  destruct f as [t n l c]. cbn [total_usd largest_holding_usd num_assets
    portfolio_concentration] in *. subst c.
  destruct (fgt t (of_Z 0)) eqn:Et; cbn [portfolio_concentration].
  - destruct l as [a| | |], t as [b| | |]; cbn [fle fgt flt of_Z] in *;
      try discriminate.
    + right. split; [discriminate|]. cbn [np_div].
      destruct (Qeqb b 0) eqn:Eb; [exfalso; q_props; lra|].
      eexists. split; [reflexivity|]. rewrite Qred_correct.
      q_props. split.
      * apply Qle_shift_div_l; lra.
      * apply Qle_shift_div_r; lra.
    + right. split; [discriminate|]. exists 0%Q. split; [reflexivity|lra].
    + left. split; reflexivity.
  - right. destruct Hcases as [(_ & _ & ->) | (_ & Hpos & _)];
      [|congruence].
    split; [discriminate|]. exists (inject_Z 0). split; [reflexivity|].
    unfold inject_Z. lra.
Qed.

Lemma largest_infinite_iff (qs : list pyfloat) :
  Forall (fun q => fgt q (of_Z 0) = true) qs ->
  fold_left py_max qs (of_Z 0) = PInf <-> In PInf qs.
Proof.
  intro Hpos. pose proof (fold_max_is_maximum Hpos) as Hmax.
  destruct qs as [|q qs]; cbn [is_maximum] in Hmax.
  - rewrite Hmax. split; [discriminate|intros []].
  - destruct Hmax as [Hin Hall]. split.
    + intro H. rewrite <- H. exact Hin.
    + intro H. rewrite Forall_forall in Hall. apply fle_PInf, Hall, H.
Qed.

(** X10: the concentration the extractor returns is NaN exactly when the
    largest holding is infinite, that is when one of the quotes it accepted
    is; otherwise it is a number of [0, 1]. *)
Theorem concentration_nan_iff_infinite (payload : json) :
  exists f,
    extract_features payload = Ok f
    /\ (is_nan (portfolio_concentration f) = true
        <-> largest_holding_usd f = PInf)
    /\ (largest_holding_usd f = PInf <-> In PInf (extracted_quotes payload))
    /\ (largest_holding_usd f <> PInf ->
        exists c, portfolio_concentration f = Fin c /\ (0 <= c <= 1)%Q).
Proof.
  eexists. split; [apply extract_features_shape|].
  pose proof (extracted_quotes_positive payload) as Hpos.
  set (qs := extracted_quotes payload) in *.
  destruct (accumulate_fields qs zero_features) as (_ & _ & Hl & Hc).
  pose proof (accumulate_ok Hpos zero_features_ok) as Hok.
  set (acc := accumulate qs zero_features) in *.
  destruct (with_concentration_fields acc) as (_ & _ & Hl').
  rewrite Hl'.
  assert (Hiff : largest_holding_usd acc = PInf <-> In PInf qs)
    by (rewrite Hl; apply largest_infinite_iff, Hpos).
  split; [|split; [exact Hiff|]];
    destruct (with_concentration_value Hok Hc)
      as [[Hinf Hnan] | [Hfin (c & Hval & Hc01)]].
  - rewrite Hnan. split; [intros _; exact Hinf|reflexivity].
  - rewrite Hval. split; [discriminate|contradiction].
  - contradiction.
  - intros _. exists c. split; [exact Hval|exact Hc01].
Qed.

Lemma flt_of_Z (a b : Z) : flt (of_Z a) (of_Z b) = (a <? b).
Proof.
  unfold of_Z, flt, Qltb, Qcompare, inject_Z. cbn [Qnum Qden].
  rewrite !Z.mul_1_r. unfold Z.ltb. reflexivity.
Qed.

(** X11: what a mapping item contributes, by the type of its [quote]: a
    missing or null quote, a list, a mapping, [False], a non-positive number,
    an integer too large for a float and a string the parser rejects add
    nothing and are skipped without an error; [True] counts as a holding
    worth 1. *)
Theorem holding_by_quote_type (d : list (string * json)) (f : features) :
  process_item (JDict d) f
  = Ok match dict_get d "quote" with
       | Some (JBool true) => add_holding f (of_Z 1)
       | Some (JInt z) =>
           if (0 <? z) && (z <? float_overflow_threshold)
           then add_holding f (of_Z z)
           else f
       | Some (JFloat q) => if fgt q (of_Z 0) then add_holding f q else f
       | Some (JStr s) =>
           match float_of_str s with
           | Some q => if fgt q (of_Z 0) then add_holding f q else f
           | None => f
           end
       | _ => f
       end.
Proof.
  unfold process_item, item_try, item_handler, try_except, py_get.
  destruct (dict_get d "quote") as [[ |[|]|z|q|s|l|d']|]; cbn [bind py_float];
    try reflexivity.
  - replace (fgt (of_Z 1) (of_Z 0)) with true by reflexivity.
    destruct (dict_get d "contract_ticker_symbol"); reflexivity.
  - destruct (Z.ltb_spec (Z.abs z) float_overflow_threshold) as [Hs|Hl].
    + cbn [bind]. unfold fgt. rewrite flt_of_Z.
      destruct (Z.ltb_spec 0 z) as [Hp|Hn].
      * destruct (Z.ltb_spec z float_overflow_threshold); [|lia].
        cbn [andb]. destruct (dict_get d "contract_ticker_symbol");
          reflexivity.
      * reflexivity.
    + cbn [kind is_kind orb].
      destruct (Z.ltb_spec 0 z) as [Hp|Hn].
      * destruct (Z.ltb_spec z float_overflow_threshold); [lia|].
        cbn [andb]. destruct (dict_get d "contract_ticker_symbol");
          reflexivity.
      * cbn [andb]. destruct (dict_get d "contract_ticker_symbol");
          reflexivity.
  - destruct (fgt q (of_Z 0)); [|reflexivity].
    destruct (dict_get d "contract_ticker_symbol"); reflexivity.
  - destruct (float_of_str s) as [q|]; [|reflexivity].
    destruct (fgt q (of_Z 0)); [|reflexivity].
    destruct (dict_get d "contract_ticker_symbol"); reflexivity.
Qed.

Lemma valid_quotes_permutation (l l' : list json) :
  Permutation l l' -> Permutation (valid_quotes l) (valid_quotes l').
Proof.
  induction 1 as [|x l l' _ IH|x y l|l l' l'' _ IH1 _ IH2];
    cbn [valid_quotes].
  - constructor.
  - destruct (valid_quote x); [constructor|]; exact IH.
  - destruct (valid_quote x), (valid_quote y);
      try apply Permutation_refl. apply perm_swap.
  - eapply Permutation_trans; eassumption.
Qed.

Lemma forallb_permutation (l l' : list json) :
  Permutation l l' -> forallb is_dict l = forallb is_dict l'.
Proof.
  induction 1 as [|x l l' _ IH|x y l|l l' l'' _ IH1 _ IH2]; cbn [forallb].
  - reflexivity.
  - rewrite IH. reflexivity.
  - destruct (is_dict x), (is_dict y); reflexivity.
  - congruence.
Qed.

Lemma maximum_permutation (qs qs' : list pyfloat) (m m' : pyfloat) :
  Permutation qs qs' -> is_maximum m qs -> is_maximum m' qs' ->
  feq m m' = true.
Proof.
  intros Hperm Hm Hm'.
  destruct qs as [|q qs].
  - apply Permutation_nil in Hperm. subst qs'. cbn in Hm, Hm'.
    subst. reflexivity.
  - destruct qs' as [|q' qs'];
      [apply Permutation_sym, Permutation_nil in Hperm; discriminate|].
    destruct Hm as [Hin Hall], Hm' as [Hin' Hall'].
    rewrite Forall_forall in Hall, Hall'.
    apply fle_antisym.
    + apply Hall'. eapply Permutation_in; [exact Hperm|exact Hin].
    + apply Hall. eapply Permutation_in;
        [apply Permutation_sym; exact Hperm|exact Hin'].
Qed.

Lemma extracted_quotes_of_items (l : list json) :
  extracted_quotes (payload_of_items l)
  = if forallb is_dict l then valid_quotes l else [].
Proof.
  unfold extracted_quotes, payload_of_items.
  cbn [structural_error dict_get String.eqb Ascii.eqb Bool.eqb payload_items
       items_error].
  destruct (forallb is_dict l); reflexivity.
Qed.

(** X12: the number of assets and the largest holding of a payload do not
    depend on the order of its balance items. *)
Theorem extraction_order_independent (items items' : list json) :
  Permutation items items' ->
  exists f f',
    extract_features (payload_of_items items) = Ok f
    /\ extract_features (payload_of_items items') = Ok f'
    /\ num_assets f = num_assets f'
    /\ feq (largest_holding_usd f) (largest_holding_usd f') = true.
Proof.
  intro Hperm. do 2 eexists.
  split; [apply extract_features_shape|].
  split; [apply extract_features_shape|].
  pose proof (extracted_quotes_positive (payload_of_items items)) as Hpos.
  pose proof (extracted_quotes_positive (payload_of_items items')) as Hpos'.
  assert (Hqs : Permutation (extracted_quotes (payload_of_items items))
                            (extracted_quotes (payload_of_items items'))).
  { rewrite !extracted_quotes_of_items.
    rewrite <- (forallb_permutation Hperm).
    destruct (forallb is_dict items);
      [apply valid_quotes_permutation, Hperm|constructor]. }
  set (qs := extracted_quotes (payload_of_items items)) in *.
  set (qs' := extracted_quotes (payload_of_items items')) in *.
  destruct (with_concentration_fields (accumulate qs zero_features))
    as (_ & -> & ->).
  destruct (with_concentration_fields (accumulate qs' zero_features))
    as (_ & -> & ->).
  destruct (accumulate_fields qs zero_features) as (_ & -> & -> & _).
  destruct (accumulate_fields qs' zero_features) as (_ & -> & -> & _).
  split.
  - rewrite (Permutation_length Hqs). reflexivity.
  - apply (maximum_permutation _ _ Hqs); apply fold_max_is_maximum;
      assumption.
Qed.


(** ** The batch runner: outcomes of one wallet and invariants of a run *)

(** The three ways one wallet ends, by the result of its fetch and of the
    scorer. *)
Lemma process_wallet_cases (st : run_state) (addr : string)
  (network : nat -> response) :
  match fst (fetch_wallet_data network 3) with
  | None => process_wallet st (addr, network) = record_fetch_failure addr st
  | Some d =>
      match compute_score (with_concentration
                             (accumulate (extracted_quotes d) zero_features))
      with
      | Ok s =>
          process_wallet st (addr, network)
          = append_result st (mkResult addr s)
      | Raise e =>
          process_wallet st (addr, network)
          = append_result (append_failure st (addr, message e))
                          (mkResult addr 0)
      end
  end.
Proof.
  destruct (fst (fetch_wallet_data network 3)) as [d|] eqn:Ef.
  - destruct (fetch_result_returned _ _ Ef) as (m & Hret).
    destruct (attempt_return _ _ Hret) as (status & _ & _ & _ & Ht & _ & _).
    unfold process_wallet, wallet_try. rewrite Ef, Ht. cbn [negb].
    rewrite extract_features_shape. cbn [bind].
    destruct (compute_score _); reflexivity.
  - unfold process_wallet, wallet_try. rewrite Ef. reflexivity.
Qed.

(** X13: a fetched payload from which the extractor takes no holding,
    because it has none or because its structure is not the expected one, is
    scored 800 and leaves no entry in the list of failures. *)
Theorem unreadable_payload_scores_800 (st : run_state) (addr : string)
  (network : nat -> response) (d : json) :
  fst (fetch_wallet_data network 3) = Some d ->
  structural_error d = true \/ valid_quotes (payload_items d) = [] ->
  process_wallet st (addr, network) = append_result st (mkResult addr 800).
Proof.
  intros Hf Hno.
  assert (Hqs : extracted_quotes d = []).
  { unfold extracted_quotes. destruct Hno as [-> | ->]; [reflexivity|].
    destruct (structural_error d); reflexivity. }
  pose proof (process_wallet_cases st addr network) as H.
  rewrite Hf, Hqs in H. exact H.
Qed.

(** X14: with a payload in hand, the wallet ends in the failure list exactly
    when one of the accepted quotes is infinite: the scorer then raises on a
    NaN, the wallet gets the score 0 and the message of [round] as reason.
    Every other payload is scored between 0 and 1000. *)
Theorem wallet_fails_iff_infinite_quote (Hlog : log10_spec) (st : run_state)
  (addr : string) (network : nat -> response) (d : json) :
  fst (fetch_wallet_data network 3) = Some d ->
  (In PInf (extracted_quotes d) ->
   process_wallet st (addr, network)
   = append_result
       (append_failure st (addr, "cannot convert float NaN to integer"))
       (mkResult addr 0))
  /\ (~ In PInf (extracted_quotes d) ->
      exists s,
        0 <= s <= 1000
        /\ process_wallet st (addr, network)
           = append_result st (mkResult addr s)).
Proof.
  intro Hf.
  pose proof (process_wallet_cases st addr network) as H. rewrite Hf in H.
  pose proof (extracted_quotes_positive d) as Hpos.
  set (qs := extracted_quotes d) in *.
  destruct (accumulate_fields qs zero_features) as (_ & _ & Hl & Hc).
  pose proof (accumulate_ok Hpos zero_features_ok) as Hok.
  change (largest_holding_usd zero_features) with (of_Z 0) in Hl.
  pose proof (largest_infinite_iff Hpos) as Hiff. rewrite <- Hl in Hiff.
  set (acc := accumulate qs zero_features) in *.
  pose proof (with_concentration_ok Hok) as Hok'.
  split; intro Hin.
  - apply Hiff in Hin.
    destruct (with_concentration_value Hok Hc) as [[_ Hnan] | [Hfin _]];
      [|contradiction].
    assert (Hraise : compute_score (with_concentration acc)
                     = Raise (mkExn ValueError
                                "cannot convert float NaN to integer")).
    { destruct (normalize_portfolio_size_unit
                  (total_usd (with_concentration acc)) Hlog) as (s & Hs & _).
      - apply (fle_not_nan _ _ (ok_largest_le_total Hok')).
      - destruct (normalize_diversification_fin
                    (num_assets (with_concentration acc))) as [dv Hd].
        unfold compute_score, weighted_score. rewrite Hs, Hd, Hnan.
        reflexivity. }
    rewrite Hraise in H. exact H.
  - destruct (with_concentration_value Hok Hc)
      as [[Hinf _] | [_ (c & Hval & _)]]; [apply Hiff in Hinf; contradiction|].
    assert (Hscore : exists s, compute_score (with_concentration acc) = Ok s
                               /\ 0 <= s <= 1000).
    { destruct (normalize_portfolio_size_unit
                  (total_usd (with_concentration acc)) Hlog) as (s & Hs & _).
      - apply (fle_not_nan _ _ (ok_largest_le_total Hok')).
      - destruct (normalize_diversification_fin
                    (num_assets (with_concentration acc))) as [dv Hd].
        assert (Hnn : is_nan (portfolio_concentration
                                (with_concentration acc)) = false)
          by (rewrite Hval; reflexivity).
        destruct (normalize_concentration_fin _ Hnn) as [cs Hcs].
        destruct (weighted_score_fin _ Hs Hd Hcs) as [w Hw].
        destruct (compute_score_finite _ Hw) as (sc & Hsc & Hrange & _).
        exists sc. split; assumption. }
    destruct Hscore as (s & Hs & Hrange). rewrite Hs in H.
    exists s. split; assumption.
Qed.

(** X15: the wallets of a batch are processed independently of each other:
    the results and failures of two batches run one after the other are
    those of the two batches, concatenated. *)
Theorem main_app (b1 b2 : list (string * (nat -> response))) :
  results (main (b1 ++ b2)) = results (main b1) ++ results (main b2)
  /\ failed_addresses (main (b1 ++ b2))
     = failed_addresses (main b1) ++ failed_addresses (main b2).
Proof.
  unfold main at 1 4. rewrite run_from_app.
  apply (run_from_frame b2 (run_from initial_state b1)).
Qed.


Lemma initial_state_ok : run_ok initial_state.
Proof. constructor; cbn; [constructor|constructor|lia]. Qed.

Lemma process_wallet_ok (st : run_state) (w : string * (nat -> response)) :
  run_ok st -> run_ok (process_wallet st w).
Proof.
  intros [Hs Hf Hl]. destruct w as [addr network].
  assert (Hkeep : Forall (fun fr => In (mkResult (fst fr) 0)
                                       (results st ++ [mkResult addr 0])
                                    /\ (snd fr = "Failed to fetch data"
                                        \/ snd fr
                                           = "cannot convert float NaN to integer"))
                         (failed_addresses st)).
  { eapply Forall_impl; [|exact Hf]. intros fr [Hin Hr].
    split; [apply in_or_app; left; exact Hin|exact Hr]. }
  assert (Hlast : In (mkResult addr 0) (results st ++ [mkResult addr 0]))
    by (apply in_or_app; right; left; reflexivity).
  pose proof (process_wallet_cases st addr network) as H.
  destruct (fst (fetch_wallet_data network 3)) as [d|].
  - set (f := with_concentration _) in H.
    destruct (weighted_score_cases f) as [[wt Hw] | Hw].
    + destruct (compute_score_finite _ Hw) as (sc & Hscore & Hrange & _).
      rewrite Hscore in H. rewrite H.
      constructor; cbn [append_result results failed_addresses].
      * apply Forall_app. split; [exact Hs|]. constructor; [exact Hrange|].
        constructor.
      * eapply Forall_impl; [|exact Hf]. intros fr [Hin Hr].
        split; [apply in_or_app; left; exact Hin|exact Hr].
      * rewrite List.length_app. cbn [List.length]. lia.
    + unfold compute_score in H. rewrite Hw in H.
      cbn [of_Z fsub fmul py_round bind message] in H. rewrite H.
      constructor;
        cbn [append_result append_failure results failed_addresses].
      * apply Forall_app. split; [exact Hs|]. constructor; [cbn; lia|].
        constructor.
      * apply Forall_app. split; [exact Hkeep|]. constructor; [|constructor].
        split; [exact Hlast|right; reflexivity].
      * rewrite !List.length_app. cbn [List.length]. lia.
  - rewrite H. unfold record_fetch_failure.
    constructor; cbn [append_result append_failure results failed_addresses].
    + apply Forall_app. split; [exact Hs|]. constructor; [cbn; lia|].
      constructor.
    + apply Forall_app. split; [exact Hkeep|]. constructor; [|constructor].
      split; [exact Hlast|left; reflexivity].
    + rewrite !List.length_app. cbn [List.length]. lia.
Qed.

Lemma run_from_ok (batch : list (string * (nat -> response))) :
  forall st, run_ok st -> run_ok (run_from st batch).
Proof.
  induction batch as [|w batch IH]; intros st Hst; [exact Hst|].
  apply IH, process_wallet_ok, Hst.
Qed.

Lemma results_length (batch : list (string * (nat -> response))) :
  List.length (results (main batch)) = List.length batch.
Proof.
  pose proof (run_from_wallets batch initial_state) as H.
  apply (f_equal (@List.length string)) in H.
  rewrite List.length_app, !List.length_map in H. exact H.
Qed.

(** X16: whatever the network answers and whatever the logarithm returns,
    every score of a run lies between 0 and 1000, every wallet of the failure
    list has a result with the score 0 and one of two reasons, and the
    failures are at most as many as the results. *)
Theorem run_invariants (batch : list (string * (nat -> response))) :
  Forall (fun r => 0 <= score r <= 1000) (results (main batch))
  /\ (forall addr reason,
        In (addr, reason) (failed_addresses (main batch)) ->
        In (mkResult addr 0) (results (main batch))
        /\ (reason = "Failed to fetch data"
            \/ reason = "cannot convert float NaN to integer"))
  /\ (List.length (failed_addresses (main batch))
      <= List.length (results (main batch)))%nat.
Proof.
  destruct (run_from_ok batch initial_state_ok) as [Hs Hf Hl].
  split; [exact Hs|]. split; [|exact Hl].
  intros addr reason Hin. rewrite Forall_forall in Hf.
  apply (Hf (addr, reason) Hin).
Qed.

Lemma percentage_unit (a : Z) (n : positive) :
  0 <= a <= Z.pos n ->
  (0 <= inject_Z a / inject_Z (Z.pos n) * inject_Z 100 <= 100)%Q.
Proof.
  intro H. unfold Qle, Qdiv, Qmult, Qinv, inject_Z. cbn [Qnum Qden]. nia.
Qed.

Lemma success_rate_of_state (st : run_state) :
  run_ok st -> results st <> [] ->
  exists q, success_rate st = Ok (Fin q) /\ (0 <= q <= 100)%Q.
Proof.
  intros [_ _ Hl] Hne. unfold success_rate, py_int_div, successful.
  destruct (results st) as [|r rs] eqn:E; [contradiction|].
  set (n := List.length (r :: rs)) in *.
  assert (Hn : (0 < n)%nat) by (cbn; lia).
  destruct (Z.of_nat n) as [|p|p] eqn:En; try lia.
  cbn [Z.eqb bind of_Z fmul]. eexists. split; [reflexivity|].
  rewrite !Qred_correct. apply percentage_unit. lia.
Qed.

(** X17: the summary of a run does not divide by zero.  On the empty batch
    the final table has no columns and its selection fails before the
    success rate is computed; on every other batch the table is built and
    the success rate is a percentage between 0 and 100. *)
Theorem summary_never_divides_by_zero
  (batch : list (string * (nat -> response))) :
  match summary (main batch) with
  | None => batch = []
  | Some rate =>
      batch <> []
      /\ exists q, rate = Ok (Fin q) /\ (0 <= q <= 100)%Q
  end.
Proof.
  pose proof (results_length batch) as Hlen.
  pose proof (run_from_ok batch initial_state_ok) as Hok.
  fold (main batch) in Hok.
  unfold summary, select_columns.
  destruct (results (main batch)) as [|r rs] eqn:E.
  - destruct batch; [reflexivity|discriminate Hlen].
  - split; [intros ->; discriminate Hlen|].
    apply success_rate_of_state; [exact Hok|].
    rewrite E. discriminate.
Qed.

(** ** The wallet list *)

Lemma In_dropna (cells : list (option string)) (s : string) :
  In s (dropna cells) <-> In (Some s) cells.
Proof.
  induction cells as [|[c|] cells IH]; cbn [dropna In].
  - split; intros [].
  - rewrite IH. split; intros [H|H].
    + left. rewrite H. reflexivity.
    + right. exact H.
    + left. injection H as ->. reflexivity.
    + right. exact H.
  - rewrite IH. split; [intro H; right; exact H|].
    intros [H|H]; [discriminate H|exact H].
Qed.

Lemma In_clean_column (cells : list (option string)) (s : string) :
  In (Some s) (clean_column cells)
  <-> exists c, In (Some c) cells /\ s = str_lower (str_strip c).
Proof.
  unfold clean_column. rewrite in_map_iff. split.
  - intros ([c|] & Hc & Hin); cbn in Hc; [|discriminate].
    exists c. split; [exact Hin|congruence].
  - intros (c & Hin & ->). exists (Some c). split; [reflexivity|exact Hin].
Qed.

Lemma In_unique (l : list string) (x : string) : In x (unique l) <-> In x l.
Proof.
  induction l as [|y l IH]; cbn [unique In]; [split; intros []|].
  rewrite filter_In, IH. split.
  - intros [H|[H _]]; [left; exact H|right; exact H].
  - intros [H|H]; [left; exact H|].
    destruct (String.eqb_spec x y) as [->|Hne]; [left; reflexivity|].
    right. split; [exact H|reflexivity].
Qed.

Lemma NoDup_unique (l : list string) : NoDup (unique l).
Proof.
  induction l as [|y l IH]; cbn [unique]; constructor.
  - rewrite filter_In. intros [_ H]. rewrite String.eqb_refl in H.
    discriminate H.
  - apply NoDup_filter, IH.
Qed.

Lemma dropna_none (cells : list (option string)) :
  dropna (clean_column cells) = [] -> Forall (fun c => c = None) cells.
Proof.
  induction cells as [|[c|] cells IH]; cbn; intro H;
    [constructor|discriminate|].
  constructor; [reflexivity|apply IH, H].
Qed.

(** X18: the wallet list the script works on is never empty and has no
    address twice; its addresses are the cleaned (stripped, lower-cased)
    texts of the cells of the column that are not missing, all of them.
    The script exits instead when the file, the column or its text is
    missing, or when every cell is. *)
Theorem load_wallets_spec (input : csv_input) :
  match load_wallets input with
  | Some wallet_addresses =>
      wallet_addresses <> []
      /\ NoDup wallet_addresses
      /\ exists cells,
           input = Column cells
           /\ forall a, In a wallet_addresses
                        <-> exists c, In (Some c) cells
                                      /\ a = str_lower (str_strip c)
  | None =>
      forall cells, input = Column cells -> Forall (fun c => c = None) cells
  end.
Proof.
  destruct input as [| | |cells]; cbn [load_wallets]; try discriminate.
  pose proof (NoDup_unique (dropna (clean_column cells))) as Hnd.
  pose proof (In_unique (dropna (clean_column cells))) as Hin.
  destruct (unique (dropna (clean_column cells))) as [|a l] eqn:E.
  - intros cells' Heq. injection Heq as <-. apply dropna_none.
    destruct (dropna (clean_column cells)) as [|x xs]; [reflexivity|].
    discriminate E.
  - split; [discriminate|]. split; [exact Hnd|].
    exists cells. split; [reflexivity|].
    intro b. rewrite Hin, In_dropna. apply In_clean_column.
Qed.

(** X19: a script that gets past the wallet list writes one result per
    address and no address twice, and its summary does not divide by
    zero. *)
Theorem run_script_spec (input : csv_input)
  (network : string -> nat -> response) (st : run_state) :
  run_script input network = Some st ->
  results st <> []
  /\ NoDup (map wallet_id (results st))
  /\ exists q, success_rate st = Ok (Fin q) /\ (0 <= q <= 100)%Q.
Proof.
  unfold run_script. intro H.
  destruct (load_wallets input) as [l|] eqn:El; [|discriminate].
  injection H as <-.
  assert (Hl : l <> [] /\ NoDup l).
  { destruct input as [| | |cells]; cbn [load_wallets] in El;
      try discriminate.
    pose proof (NoDup_unique (dropna (clean_column cells))) as Hnd.
    destruct (unique (dropna (clean_column cells))); [discriminate|].
    injection El as <-. split; [discriminate|exact Hnd]. }
  destruct Hl as [Hne Hnd].
  set (batch := map (fun addr => (addr, network addr)) l).
  assert (Hids : map wallet_id (results (main batch)) = l).
  { pose proof (run_from_wallets batch initial_state) as H.
    cbn [initial_state results map app] in H. unfold main. rewrite H.
    unfold batch. rewrite map_map. cbn [fst]. apply map_id. }
  assert (Hres : results (main batch) <> []).
  { intro H. rewrite H in Hids. cbn in Hids. congruence. }
  split; [exact Hres|]. split; [rewrite Hids; exact Hnd|].
  apply success_rate_of_state; [apply run_from_ok, initial_state_ok|exact Hres].
Qed.

End Program.

(* ================================================================== *)
(** * Concrete runs *)
(* ================================================================== *)

(** [log10_decades] meets the assumptions on the logarithm. *)

Lemma decades_reached_monotone (ts : list Q) (a b : Q) :
  (a <= b)%Q -> decades_reached a ts <= decades_reached b ts.
Proof.
  intro Hab. unfold decades_reached. apply inj_le.
  induction ts as [|t ts IH]; cbn [filter]; [lia|].
  destruct (Qleb t a) eqn:Ea.
  - assert (Eb : Qleb t b = true)
      by (apply Qleb_le; apply Qleb_le in Ea; lra).
    rewrite Eb. cbn [List.length]. lia.
  - destruct (Qleb t b); cbn [List.length]; lia.
Qed.

Lemma log10_decades_spec : log10_spec log10_decades.
Proof.
  constructor; [reflexivity|reflexivity|].
  intros [a| | |] [b| | |]; cbn [fle of_Z log10_decades]; intros H1 Hxy;
    try discriminate; try reflexivity.
  - apply Qleb_le in H1, Hxy. unfold inject_Z in H1.
    assert (Ha : Qltb 0 a = true) by (apply Qltb_lt; lra).
    assert (Hb : Qltb 0 b = true) by (apply Qltb_lt; lra).
    rewrite Ha, Hb. cbn [fle of_Z]. apply Qleb_le. rewrite <- Zle_Qle.
    apply decades_reached_monotone, Hxy.
  - apply Qleb_le in H1. unfold inject_Z in H1.
    assert (Ha : Qltb 0 a = true) by (apply Qltb_lt; lra).
    rewrite Ha. reflexivity.
Qed.

(** ** Concrete runs of the theorems with hypotheses *)

(** C2 on an empty portfolio with a billion assets recorded. *)
Lemma C2_witness :
  let f := mkFeatures (of_Z 0) 1000000000 (of_Z 0) (of_Z 0) in
  PortfolioFeatures f
  /\ feq (total_usd f) (of_Z 0) = true
  /\ compute_score log10_decades f = Ok 800.
Proof.
  cbv zeta.
  assert (Hpf : PortfolioFeatures
                  (mkFeatures (of_Z 0) 1000000000 (of_Z 0) (of_Z 0))).
  { constructor; cbn; [reflexivity|lia|reflexivity|split; reflexivity]. }
  split; [exact Hpf|]. split; [reflexivity|].
  apply (C2_empty_portfolio_scores_800 log10_decades Hpf). reflexivity.
Defined.

(** C3 on an infinite total and a concentration of 7. *)
Lemma C3_witness :
  let f := mkFeatures PInf 1000000000 (of_Z (-5)) (Fin 7) in
  log10_spec log10_decades
  /\ is_nan (total_usd f) = false
  /\ is_nan (portfolio_concentration f) = false
  /\ exists s, compute_score log10_decades f = Ok s /\ 0 <= s <= 1000.
Proof.
  cbv zeta. split; [exact log10_decades_spec|].
  split; [reflexivity|]. split; [reflexivity|].
  apply (C3_score_in_range log10_decades_spec); reflexivity.
Defined.

(** C4 on a batch of three wallets whose second fetch times out. *)
Lemma C4_witness :
  let pre := [("0xaa", answers scenario_payload)] in
  let post := [("0xcc", answers scenario_payload)] in
  let st := main float_of_literal log10_decades
                 (pre ++ ("0xbb", always_timeout) :: post) in
  fst (fetch_wallet_data always_timeout 3) = None
  /\ results st
     = [mkResult "0xaa" 475; mkResult "0xbb" 0; mkResult "0xcc" 475]
  /\ failed_addresses st = [("0xbb", "Failed to fetch data")].
Proof.
  cbv zeta. split; [reflexivity|].
  destruct (C4_fetch_failure_recorded float_of_literal log10_decades
              [("0xaa", answers scenario_payload)]
              [("0xcc", answers scenario_payload)]
              "0xbb" always_timeout eq_refl) as [Hr Hf].
  rewrite Hr, Hf. split; reflexivity.
Defined.

(** [extract_features_invariant] on the payload of the first scenario. *)
Lemma extract_features_invariant_witness :
  forallb is_dict (payload_items scenario_payload) = true
  /\ exists f,
       extract_features float_of_literal scenario_payload = Ok f
       /\ fle (largest_holding_usd f) (total_usd f) = true
       /\ total_usd f = of_Z 1000000
       /\ num_assets f = 2
       /\ is_maximum (largest_holding_usd f) [of_Z 500000; of_Z 500000].
Proof.
  split; [reflexivity|].
  destruct (extract_features_invariant float_of_literal scenario_payload)
    as (f & He & Hle & _ & Hsum).
  destruct (Hsum eq_refl) as (Ht & Hn & Hm).
  exists f. split; [exact He|]. split; [exact Hle|]. split; [exact Ht|].
  split; [exact Hn|exact Hm].
Defined.

(** C7 on a payload whose [data] entry is [null]. *)
Lemma C7_witness :
  let payload := JDict [("data", JNull)] in
  structural_error payload = true
  /\ (exists e, extract_try float_of_literal payload = Raise e)
  /\ extract_features float_of_literal payload = Ok zero_features.
Proof.
  cbv zeta. split; [reflexivity|].
  apply (C7_extract_features_total float_of_literal). reflexivity.
Defined.

(** C8 with [log10_decades] for the logarithm. *)
Lemma C8_witness :
  log10_spec log10_decades
  /\ normalize_portfolio_size log10_decades (of_Z (-5)) = of_Z 0
  /\ normalize_portfolio_size log10_decades (of_Z 2000000) = of_Z 1
  /\ fle (normalize_portfolio_size log10_decades (of_Z 500))
         (normalize_portfolio_size log10_decades (of_Z 70000)) = true.
Proof.
  split; [exact log10_decades_spec|].
  destruct (C8_normalize_portfolio_size log10_decades_spec)
    as (Hzero & Hone & Hmono & _).
  split; [apply Hzero; reflexivity|].
  split; [apply Hone; reflexivity|apply Hmono; reflexivity].
Defined.

(** C9 with [log10_decades] for the logarithm. *)
Lemma C9_witness :
  log10_decades (of_Z 100) = of_Z 2
  /\ log10_decades (of_Z 1000000) = of_Z 6
  /\ extract_features float_of_literal scenario_payload = Ok scenario_features
  /\ compute_score log10_decades scenario_features = Ok 475.
Proof.
  split; [reflexivity|]. split; [reflexivity|].
  destruct (C9_scenario_scores_475 float_of_literal log10_decades
              eq_refl eq_refl) as (He & _ & _ & _ & _ & Hs).
  split; assumption.
Defined.

(** [empty_portfolio_iff] on a payload with an empty list of items. *)
Lemma empty_portfolio_iff_witness :
  let payload := JDict [("data", JDict [("items", JList [])])] in
  forallb is_dict (payload_items payload) = true
  /\ valid_quotes float_of_literal (payload_items payload) = []
  /\ exists f,
       extract_features float_of_literal payload = Ok f
       /\ feq (total_usd f) (of_Z 0) = true
       /\ compute_score log10_decades f = Ok 800.
Proof.
  cbv zeta. split; [reflexivity|]. split; [reflexivity|].
  destruct (empty_portfolio_iff float_of_literal log10_decades
              (JDict [("data", JDict [("items", JList [])])]))
    as (f & He & _ & _ & H800 & Hiff).
  exists f. split; [exact He|].
  assert (Hz : feq (total_usd f) (of_Z 0) = true)
    by (apply (Hiff eq_refl); reflexivity).
  split; [exact Hz|apply H800, Hz].
Defined.

(** ** An input on which C3, as first stated, fails *)

(** C3 as stated: the record the extractor returns on [infinite_payload] has
    a NaN concentration, and [compute_score] raises on it instead of
    returning an integer; so it does on a record with a NaN total. *)
Lemma C3_counterexample :
  let f := mkFeatures PInf 1 PInf NaN in
  let g := mkFeatures NaN 3 (of_Z 500) (Fin 0.5) in
  extract_features float_of_literal infinite_payload = Ok f
  /\ compute_score log10_decades f
     = Raise (mkExn ValueError "cannot convert float NaN to integer")
  /\ ~ (exists s, compute_score log10_decades f = Ok s /\ 0 <= s <= 1000)
  /\ compute_score log10_decades g
     = Raise (mkExn ValueError "cannot convert float NaN to integer").
Proof.
  cbv zeta. split; [reflexivity|]. split; [reflexivity|].
  split; [|reflexivity].
  intros (s & Hs & _). discriminate Hs.
Qed.

(** The same payload through the batch runner: the exception of
    [compute_score] is caught by the handler of the loop, which records the
    failure with the message of the exception and a score of 0. *)
Example main_records_scoring_failure :
  main float_of_literal log10_decades [("0xdd", answers infinite_payload)]
  = mkState [mkResult "0xdd" 0]
            [("0xdd", "cannot convert float NaN to integer")].
Proof. reflexivity. Qed.

(** The arithmetic of the scenario of C9 in binary64: the total, the
    concentration and the size score are exact, and the value handed to
    [round] is the float 475. *)
Example scenario_in_binary64 : Binary64.b64_as_specified = true.
Proof. vm_compute. reflexivity. Qed.

(** ** Concrete runs of the further properties *)

(** X1 on a network that times out once and then answers. *)
Lemma fetch_stops_at_first_success_witness :
  let network := fun n => match n with
                          | O => Timeout
                          | S _ => Reply 200 (Some scenario_payload)
                          end in
  fetch_wallet_data network 3
  = (Some scenario_payload, [Request 0; Sleep 1; Request 1])%nat
  /\ exists k,
       (k <= 3)%nat
       /\ requests (snd (fetch_wallet_data network 3)) = seq 0 k
       /\ (forall m d, (m + 1 < k)%nat -> attempt (network m) m <> Return d)
       /\ match fst (fetch_wallet_data network 3) with
          | None =>
              k = 3%nat
              /\ forall m d, (m < 3)%nat -> attempt (network m) m <> Return d
          | Some d => exists m, k = S m /\ attempt (network m) m = Return d
          end.
Proof.
  cbv zeta. split; [reflexivity|].
  apply (fetch_stops_at_first_success
           (fun n => match n with
                     | O => Timeout
                     | S _ => Reply 200 (Some scenario_payload)
                     end) 3).
Defined.

(** X3 on three attempts that are all rate-limited: 60 seconds of pauses. *)
Lemma fetch_rate_limited_witness :
  let network := fun _ : nat => Reply 429 None in
  (forall n, exists body, network n = Reply 429 body)
  /\ fetch_wallet_data network 3
     = (None, [Request 0; Sleep 10; Request 1; Sleep 20; Request 2; Sleep 30])%nat
  /\ total_sleep (snd (fetch_wallet_data network 3)) = 60.
Proof.
  cbv zeta.
  assert (H : forall n : nat,
             exists body, (fun _ : nat => Reply 429 None) n = Reply 429 body)
    by (intro n; exists None; reflexivity).
  split; [exact H|].
  destruct (fetch_rate_limited (fun _ : nat => Reply 429 None) 3 H)
    as [Hrun Hsleep].
  split; [exact Hrun|exact Hsleep].
Defined.

(** X4 on the payload of the first scenario. *)
Lemma fetch_result_usable_witness :
  fst (fetch_wallet_data (answers scenario_payload) 3) = Some scenario_payload
  /\ truthy scenario_payload = true
  /\ py_in "data" scenario_payload = Ok true
  /\ py_in "errors" scenario_payload = Ok false.
Proof.
  split; [reflexivity|].
  apply (fetch_result_usable (answers scenario_payload) 3). reflexivity.
Defined.

(** X5 on 2 and 15 assets. *)
Lemma diversification_monotone_witness :
  2 <= 15
  /\ fle (normalize_diversification 2) (normalize_diversification 15) = true
  /\ flt (normalize_diversification 2) (normalize_diversification 15) = true.
Proof.
  split; [lia|].
  destruct (@diversification_monotone 2 15) as (Hle & _ & _ & Hlt); [lia|].
  split; [exact Hle|apply Hlt; lia].
Defined.

(** X6 on the concentrations 0.05 and 0.5. *)
Lemma concentration_score_antitone_witness :
  fle (Fin 0.05) (Fin 0.5) = true
  /\ fle (normalize_concentration (Fin 0.5))
         (normalize_concentration (Fin 0.05)) = true
  /\ normalize_concentration (Fin 0.05) = of_Z 1.
Proof.
  split; [reflexivity|].
  destruct (@concentration_score_antitone (Fin 0.05) (Fin 0.5) eq_refl)
    as (Hle & _ & _ & _).
  split; [exact Hle|reflexivity].
Defined.

(** X7 on a single holding of 50 and the portfolio of the first scenario. *)
Lemma compute_score_monotone_witness :
  let f := mkFeatures (of_Z 50) 1 (of_Z 50) (of_Z 1) in
  log10_spec log10_decades
  /\ fgt (total_usd f) (of_Z 0) = true
  /\ fle (total_usd f) (total_usd scenario_features) = true
  /\ num_assets f <= num_assets scenario_features
  /\ fle (portfolio_concentration scenario_features)
         (portfolio_concentration f) = true
  /\ exists s t,
       compute_score log10_decades f = Ok s
       /\ compute_score log10_decades scenario_features = Ok t
       /\ t <= s.
Proof.
  cbv zeta. split; [exact log10_decades_spec|].
  split; [reflexivity|]. split; [reflexivity|]. split; [cbn; lia|].
  split; [reflexivity|].
  apply (compute_score_monotone log10_decades_spec); try reflexivity.
  cbn. lia.
Defined.

(** X8 on a portfolio of 2,000,000 in 20 assets and on a single holding of
    50. *)
Lemma compute_score_extremes_witness :
  log10_spec log10_decades
  /\ compute_score log10_decades
       (mkFeatures (of_Z 2000000) 20 (of_Z 100000) (Fin 0.05)) = Ok 0
  /\ compute_score log10_decades
       (mkFeatures (of_Z 50) 1 (of_Z 50) (of_Z 1)) = Ok 1000.
Proof.
  split; [exact log10_decades_spec|]. split.
  - apply (compute_score_extremes log10_decades_spec);
      [reflexivity|cbn; lia|reflexivity].
  - apply (compute_score_extremes log10_decades_spec);
      [reflexivity|reflexivity|cbn; lia|reflexivity].
Defined.

(** X10 on the payload with the infinite quote. *)
Lemma concentration_nan_iff_infinite_witness :
  In PInf (extracted_quotes float_of_literal infinite_payload)
  /\ exists f,
       extract_features float_of_literal infinite_payload = Ok f
       /\ is_nan (portfolio_concentration f) = true.
Proof.
  split; [left; reflexivity|].
  destruct (concentration_nan_iff_infinite float_of_literal infinite_payload)
    as (f & He & Hnan & Hinf & _).
  exists f. split; [exact He|].
  apply Hnan, Hinf. left. reflexivity.
Defined.

(** X12 on the two items of a payload, swapped. *)
Lemma extraction_order_independent_witness :
  let a := JDict [("quote", JInt 5)] in
  let b := JDict [("quote", JStr "70")] in
  Permutation [a; b] [b; a]
  /\ exists f f',
       extract_features float_of_literal (payload_of_items [a; b]) = Ok f
       /\ extract_features float_of_literal (payload_of_items [b; a]) = Ok f'
       /\ num_assets f = num_assets f'
       /\ feq (largest_holding_usd f) (largest_holding_usd f') = true.
Proof.
  cbv zeta. split; [apply perm_swap|].
  apply (extraction_order_independent float_of_literal), perm_swap.
Defined.

(** X13 on a payload whose [data] entry is a list. *)
Lemma unreadable_payload_scores_800_witness :
  let d := JDict [("data", JList [JInt 1])] in
  fst (fetch_wallet_data (answers d) 3) = Some d
  /\ structural_error d = true
  /\ main float_of_literal log10_decades [("0xee", answers d)]
     = mkState [mkResult "0xee" 800] [].
Proof.
  cbv zeta. split; [reflexivity|]. split; [reflexivity|].
  unfold main, run_from. cbn [fold_left].
  rewrite (@unreadable_payload_scores_800 float_of_literal log10_decades
             initial_state "0xee"
             (answers (JDict [("data", JList [JInt 1])]))
             (JDict [("data", JList [JInt 1])]) eq_refl
             (or_introl eq_refl)).
  reflexivity.
Defined.

(** X14 on the payload with the infinite quote and on the first scenario. *)
Lemma wallet_fails_iff_infinite_quote_witness :
  log10_spec log10_decades
  /\ fst (fetch_wallet_data (answers infinite_payload) 3)
     = Some infinite_payload
  /\ In PInf (extracted_quotes float_of_literal infinite_payload)
  /\ process_wallet float_of_literal log10_decades initial_state
       ("0xdd", answers infinite_payload)
     = mkState [mkResult "0xdd" 0]
               [("0xdd", "cannot convert float NaN to integer")].
Proof.
  split; [exact log10_decades_spec|]. split; [reflexivity|].
  split; [left; reflexivity|].
  destruct (@wallet_fails_iff_infinite_quote float_of_literal log10_decades
              log10_decades_spec initial_state "0xdd"
              (answers infinite_payload) infinite_payload eq_refl)
    as [Hfail _].
  rewrite Hfail; [reflexivity|left; reflexivity].
Defined.

(** X16 and X17 on a batch of a wallet that is scored and one whose fetch
    times out: a success rate of 50. *)
Lemma run_invariants_witness :
  let batch := [("0xaa", answers scenario_payload); ("0xbb", always_timeout)] in
  In ("0xbb", "Failed to fetch data")
     (failed_addresses (main float_of_literal log10_decades batch))
  /\ In (mkResult "0xbb" 0) (results (main float_of_literal log10_decades batch)).
Proof.
  cbv zeta.
  assert (Hin : In ("0xbb", "Failed to fetch data")
                   (failed_addresses
                      (main float_of_literal log10_decades
                            [("0xaa", answers scenario_payload);
                             ("0xbb", always_timeout)])))
    by (left; reflexivity).
  split; [exact Hin|].
  destruct (run_invariants float_of_literal log10_decades
              [("0xaa", answers scenario_payload); ("0xbb", always_timeout)])
    as (_ & Hfailed & _).
  apply (Hfailed "0xbb" "Failed to fetch data" Hin).
Defined.

Lemma summary_never_divides_by_zero_witness :
  let batch := [("0xaa", answers scenario_payload); ("0xbb", always_timeout)] in
  summary (main float_of_literal log10_decades batch) = Some (Ok (of_Z 50))
  /\ summary (main float_of_literal log10_decades []) = None
  /\ batch <> []
  /\ exists q, Ok (of_Z 50) = Ok (Fin q) /\ (0 <= q <= 100)%Q.
Proof.
  cbv zeta. split; [reflexivity|]. split; [reflexivity|].
  pose proof (summary_never_divides_by_zero float_of_literal log10_decades
                [("0xaa", answers scenario_payload);
                 ("0xbb", always_timeout)]) as H.
  change (summary (main float_of_literal log10_decades
                        [("0xaa", answers scenario_payload);
                         ("0xbb", always_timeout)]))
    with (Some (@Ok pyfloat (of_Z 50))) in H.
  exact H.
Defined.

(** X18 on a column with a repeated address, a missing cell and stray
    spaces and capitals. *)
Lemma load_wallets_spec_witness :
  let cells := [Some " 0xAB "; None; Some "0xab"; Some "0xCD"] in
  load_wallets strip_spaces lower_ascii (Column cells) = Some ["0xab"; "0xcd"]
  /\ NoDup ["0xab"; "0xcd"]
  /\ (In "0xcd" ["0xab"; "0xcd"]
      <-> exists c, In (Some c) cells /\ "0xcd" = lower_ascii (strip_spaces c)).
Proof.
  cbv zeta. split; [reflexivity|].
  pose proof (load_wallets_spec strip_spaces lower_ascii
                (Column [Some " 0xAB "; None; Some "0xab"; Some "0xCD"])) as H.
  change (load_wallets strip_spaces lower_ascii
            (Column [Some " 0xAB "; None; Some "0xab"; Some "0xCD"]))
    with (Some ["0xab"; "0xcd"]) in H.
  destruct H as (_ & Hnd & cells & Heq & Hin).
  injection Heq as <-. split; [exact Hnd|apply Hin].
Defined.

(** X19 on the same column, with a network that times out for every
    wallet. *)
Lemma run_script_spec_witness :
  let input := Column [Some " 0xAB "; None; Some "0xab"; Some "0xCD"] in
  let st := mkState [mkResult "0xab" 0; mkResult "0xcd" 0]
                    [("0xab", "Failed to fetch data");
                     ("0xcd", "Failed to fetch data")] in
  run_script float_of_literal log10_decades strip_spaces lower_ascii input
             (fun _ => always_timeout) = Some st
  /\ NoDup (map wallet_id (results st))
  /\ exists q, success_rate st = Ok (Fin q) /\ (0 <= q <= 100)%Q.
Proof.
  cbv zeta.
  assert (Hrun : run_script float_of_literal log10_decades strip_spaces
                   lower_ascii
                   (Column [Some " 0xAB "; None; Some "0xab"; Some "0xCD"])
                   (fun _ => always_timeout)
                 = Some (mkState [mkResult "0xab" 0; mkResult "0xcd" 0]
                                 [("0xab", "Failed to fetch data");
                                  ("0xcd", "Failed to fetch data")]))
    by reflexivity.
  split; [exact Hrun|].
  apply (@run_script_spec _ _ _ _ _ _ _ Hrun).
Defined.
